(** * cellar-door MCP server: a shallow embedding of [src/server.ts] and of
    the entry point's [main], and the properties of its admission, transfer
    and session-identity tools.

    The server is glue around two packages, [cellar-door-exit] and
    [cellar-door-entry].  Their operations are collaborators: the handlers
    are written against a record of them, over an ambient world (clock,
    randomness) that only the collaborators touch.  The engines of the two
    packages are also given as executable models, following the
    specification, and bundled into one reference instance. *)

From Stdlib Require Import ZArith Bool List Lia.
From stdpp Require Import base option list gmap strings pretty.

Set Warnings "-register-all".
Local Open Scope string_scope.
Local Open Scope Z_scope.
Local Open Scope list_scope.

(** ** JavaScript values *)

(** The values a handler puts into a response before [JSON.stringify]:
    JSON data, [undefined], and typed byte arrays ([Uint8Array], the
    representation of key material). Objects keep their insertion order. *)
Inductive JsValue : Type :=
| VUndefined
| VNull
| VBool (b : bool)
| VNum (n : Z)
| VStr (s : string)
| VBytes (b : list Byte.byte)
| VArr (xs : list JsValue)
| VObj (fields : list (string * JsValue)).

(** Own-property lookup in an object literal's field list. *)
Fixpoint assoc_get (fields : list (string * JsValue)) (k : string) : JsValue :=
  match fields with
  | [] => VUndefined
  | (k', v) :: rest => if String.eqb k' k then v else assoc_get rest k
  end.

(** [v.k] for a data value [v]: [undefined] unless [v] is an object holding [k]. *)
Definition js_field (v : JsValue) (k : string) : JsValue :=
  match v with
  | VObj fields => assoc_get fields k
  | _ => VUndefined
  end.

(** [typeof v === 'object' && v !== null] *)
Definition is_object (v : JsValue) : bool :=
  match v with
  | VBytes _ | VArr _ | VObj _ => true
  | _ => false
  end.

(** The byte arrays occurring anywhere inside a value. *)
Fixpoint js_bytes (v : JsValue) : list (list Byte.byte) :=
  match v with
  | VBytes b => [b]
  | VArr xs => flat_map js_bytes xs
  | VObj fields => flat_map (fun kv => js_bytes (snd kv)) fields
  | _ => []
  end.

Definition key_free (v : JsValue) : Prop := js_bytes v = [].

(** The property names of a payload. *)
Definition js_keys (v : JsValue) : list string :=
  match v with
  | VObj fields => map fst fields
  | _ => []
  end.

(** ** Data of the two packages *)

Abbreviation Key := (list Byte.byte).

(** Modelled from the spec: the [Identity] type of cellar-door-exit (section 3);
    [server.ts] reads its fields [did], [publicKey] and [privateKey]. *)
Record Identity : Type := {
  did : string;
  publicKey : Key;
  privateKey : Key;
}.

(** Modelled from the spec: the [ExitType] enum of cellar-door-exit (section 3). *)
Inductive ExitType : Type := Voluntary | Forced | Emergency | KeyCompromise.

Definition ExitType_eqb (a b : ExitType) : bool :=
  match a, b with
  | Voluntary, Voluntary | Forced, Forced
  | Emergency, Emergency | KeyCompromise, KeyCompromise => true
  | _, _ => false
  end.

Definition ExitType_name (t : ExitType) : string :=
  match t with
  | Voluntary => "Voluntary"
  | Forced => "Forced"
  | Emergency => "Emergency"
  | KeyCompromise => "KeyCompromise"
  end.

(** Modelled from the spec: the [ExitMarker] type of cellar-door-exit
    (section 3). Instants are seconds on the clock's scale; an unsigned marker
    has no signature. *)
Record ExitMarker : Type := {
  id : string;
  subject : string;
  origin : string;
  exitType : ExitType;
  timestamp : Z;
  reason : option string;
  lineage : option JsValue;
  stateSnapshot : option JsValue;
  signature : option string;
}.

(** Modelled from the spec: the [AdmissionPolicy] type of cellar-door-entry
    (section 3). *)
Record AdmissionPolicy : Type := {
  requireVerifiedDeparture : bool;
  allowedExitTypes : list ExitType;
  maxAgeSeconds : option Z;
  requiredModules : list string;
}.

(** Modelled from the spec: the [AdmissionResult] type of cellar-door-entry
    (section 3). *)
Record AdmissionResult : Type := {
  admitted : bool;
  reasons : list string;
}.

(** Modelled from the spec: the [continuity] sub-result and the
    [TransferRecord] type of cellar-door-entry (section 3). *)
Record Continuity : Type := {
  valid : bool;
  continuity_errors : list string;
}.

Record TransferRecord : Type := {
  verified : bool;
  transferTime : Z;
  errors : list string;
  continuity : Continuity;
}.

(** The result of [quickEntry], as [server.ts] reads it: [arrivalMarker],
    [exitMarker.id] and [continuity]. *)
Record QuickEntryResult : Type := {
  arrivalMarker : JsValue;
  entry_exitMarker : ExitMarker;
  entry_continuity : Continuity;
}.

(** ** Exceptions and results *)

(** A thrown value whose [message] can be read, as the [catch] blocks read it:
    an object such as the [Error] of the packages and of [JSON.parse], with or
    without a message. A thrown [null] or [undefined], on which reading
    [err.message] throws in its turn, is outside this type. *)
Record JsError : Type := { message : option string }.

Inductive Result (A : Type) : Type :=
| Ok (a : A)
| Throw (err : JsError).
Arguments Ok {A} a.
Arguments Throw {A} err.

(** [err.message] as a response field. *)
Definition message_value (err : JsError) : JsValue :=
  match message err with
  | Some s => VStr s
  | None => VUndefined
  end.

(** [err.message || fallback]: a missing or empty message is falsy. *)
Definition message_or (err : JsError) (fallback : string) : string :=
  match message err with
  | Some s => if String.eqb s "" then fallback else s
  | None => fallback
  end.

(** ** Calls to the collaborators, as a session records them *)

Inductive Call : Type :=
| CallGenerateIdentity
| CallQuickExit (origin : string) (exitType : option ExitType) (reason : option string)
| CallCreateMarker (subject origin : string) (exitType : ExitType)
| CallSignMarker (marker : ExitMarker) (privateKey publicKey : Key)
| CallVerifyMarker (marker : ExitMarker)
| CallToJSON (marker : ExitMarker)
| CallFromJSON (text : string)
| CallJSONParse (text : string)
| CallEvaluateAdmission (marker : ExitMarker) (policy : option AdmissionPolicy)
| CallQuickEntry (exitMarkerJson destination : string)
| CallVerifyTransfer (exitMarker : ExitMarker) (arrivalMarker : JsValue).

Definition is_quickEntry (c : Call) : bool :=
  match c with CallQuickEntry _ _ => true | _ => false end.

Definition is_generation (c : Call) : bool :=
  match c with CallGenerateIdentity | CallQuickExit _ _ _ => true | _ => false end.

Definition is_fromJSON (c : Call) : bool :=
  match c with CallFromJSON _ => true | _ => false end.

(** The private keys handed to a collaborator by a call. *)
Definition call_privateKeys (c : Call) : list Key :=
  match c with
  | CallSignMarker _ priv _ => [priv]
  | _ => []
  end.

(** ** The collaborators *)

(** The imports of [server.ts]. Operations that may read the clock or draw
    randomness take and return the ambient world; the codec and [JSON.parse]
    are functions of their text. *)
Record Collaborators (World : Type) : Type := {
  generateIdentity : World -> Result Identity * World;
  quickExit : string -> option ExitType -> option string ->
              World -> Result (ExitMarker * Identity) * World;
  createMarker : string -> string -> ExitType -> World -> Result ExitMarker * World;
  signMarker : ExitMarker -> Key -> Key -> World -> Result ExitMarker * World;
  verifyMarker : ExitMarker -> World -> Result JsValue * World;
  toJSON : ExitMarker -> Result string;
  fromJSON : string -> Result ExitMarker;
  JSON_parse : string -> Result JsValue;
  evaluateAdmission : ExitMarker -> option AdmissionPolicy ->
                      World -> Result AdmissionResult * World;
  quickEntry : string -> string -> World -> Result QuickEntryResult * World;
  verifyTransfer : ExitMarker -> JsValue -> World -> Result TransferRecord * World;
  OPEN_DOOR : AdmissionPolicy;
  STRICT : AdmissionPolicy;
  EMERGENCY_ONLY : AdmissionPolicy;
}.
Arguments generateIdentity {World} _ _.
Arguments quickExit {World} _ _ _ _ _.
Arguments createMarker {World} _ _ _ _ _.
Arguments signMarker {World} _ _ _ _ _.
Arguments verifyMarker {World} _ _ _.
Arguments toJSON {World} _ _.
Arguments fromJSON {World} _ _.
Arguments JSON_parse {World} _ _.
Arguments evaluateAdmission {World} _ _ _ _.
Arguments quickEntry {World} _ _ _ _.
Arguments verifyTransfer {World} _ _ _ _.
Arguments OPEN_DOOR {World} _.
Arguments STRICT {World} _.
Arguments EMERGENCY_ONLY {World} _.

(** The data the collaborators return for a response holds no byte array:
    [JSON.parse] yields JSON, and the results of [verifyMarker] and the arrival
    marker of [quickEntry] are plain records. *)
Record PlainData {World : Type} (lib : Collaborators World) : Prop := {
  parse_plain : forall text v, JSON_parse lib text = Ok v -> key_free v;
  verify_plain : forall m w v w', verifyMarker lib m w = (Ok v, w') -> key_free v;
  entry_plain : forall text destination w r w',
      quickEntry lib text destination w = (Ok r, w') -> key_free (arrivalMarker r);
}.

(** ** The session state and its monad *)

(** What one [createServer] closure and its surroundings hold: the
    [sessionIdentity] variable, the ambient world, and the calls made so far. *)
Record ServerState (World : Type) : Type := {
  sessionIdentity : option Identity;
  world : World;
  trace : list Call;
}.
Arguments sessionIdentity {World} _.
Arguments world {World} _.
Arguments trace {World} _.
Arguments Build_ServerState {World} _ _ _.

Definition M (World A : Type) : Type :=
  ServerState World -> Result A * ServerState World.

Definition ret {World A} (a : A) : M World A := fun s => (Ok a, s).

Definition throw {World A} (err : JsError) : M World A := fun s => (Throw err, s).

Definition bind {World A B} (m : M World A) (k : A -> M World B) : M World B :=
  fun s =>
    match m s with
    | (Ok a, s') => k a s'
    | (Throw err, s') => (Throw err, s')
    end.

(** [try { body } catch (err) { handler }]: what [body] did before throwing stays done. *)
Definition try_catch {World A} (body : M World A) (handler : JsError -> M World A)
  : M World A :=
  fun s =>
    match body s with
    | (Ok a, s') => (Ok a, s')
    | (Throw err, s') => handler err s'
    end.

Notation "'let*' x ':=' m 'in' k" := (bind m (fun x => k))
  (at level 10, x name, m at level 100, k at level 200, only parsing).
Notation "'do' m 'then' k" := (bind m (fun _ => k))
  (at level 10, m at level 100, k at level 200, only parsing).

Definition get_sessionIdentity {World} : M World (option Identity) :=
  fun s => (Ok (sessionIdentity s), s).

Definition set_sessionIdentity {World} (i : option Identity) : M World unit :=
  fun s => (Ok tt, Build_ServerState i (world s) (trace s)).

(** A call of a collaborator that acts on the world. *)
Definition call {World A} (c : Call) (f : World -> Result A * World) : M World A :=
  fun s =>
    let (r, w) := f (world s) in
    (r, Build_ServerState (sessionIdentity s) w (trace s ++ [c])).

(** A call of a collaborator that is a function of its arguments. *)
Definition call_pure {World A} (c : Call) (r : Result A) : M World A :=
  call c (fun w => (r, w)).

(** ** Responses *)

(** A tool response: the payload handed to [JSON.stringify] and the [isError] flag
    (absent on the success paths, [true] in the [catch] blocks). *)
Record Response : Type := {
  content : JsValue;
  isError : bool;
}.

Definition strings_value (l : list string) : JsValue := VArr (map VStr l).

Definition continuity_value (c : Continuity) : JsValue :=
  VObj [("valid", VBool (valid c)); ("errors", strings_value (continuity_errors c))].

(** The own properties of an [AdmissionResult], as [{ ...result }] spreads them. *)
Definition result_fields (r : AdmissionResult) : list (string * JsValue) :=
  [("admitted", VBool (admitted r)); ("reasons", strings_value (reasons r))].

(** The own properties of a policy, as [{ ...OPEN_DOOR }] spreads them; an unset
    [maxAgeSeconds] is no property. *)
Definition policy_fields (p : AdmissionPolicy) : list (string * JsValue) :=
  [("requireVerifiedDeparture", VBool (requireVerifiedDeparture p));
   ("allowedExitTypes", strings_value (map ExitType_name (allowedExitTypes p)))]
  ++ match maxAgeSeconds p with
     | Some a => [("maxAgeSeconds", VNum a)]
     | None => []
     end
  ++ [("requiredModules", strings_value (requiredModules p))].

(** [typeof r === 'object' && r !== null ? r.valid : r], the reading of
    [verifyMarker]'s result in [quick_exit] and [verify_exit_marker]. *)
Definition valid_of (verifyResult : JsValue) : JsValue :=
  if is_object verifyResult then js_field verifyResult "valid" else verifyResult.

(** [a ?? b] *)
Definition nullish {A} (a : option A) (b : option A) : option A :=
  match a with
  | Some x => Some x
  | None => b
  end.

(** ** The entry point: the deployment's options *)

Record CreateServerOptions : Type := { serverPolicy : option string }.

Definition preset_names : list string := ["OPEN_DOOR"; "STRICT"; "EMERGENCY_ONLY"].

(** [["OPEN_DOOR", "STRICT", "EMERGENCY_ONLY"].includes(name)] *)
Definition is_preset_name (name : string) : bool :=
  existsb (String.eqb name) preset_names.

(** [z.enum(["OPEN_DOOR", "STRICT", "EMERGENCY_ONLY"])], the schema of the
    [policy] argument of [evaluate_admission]. *)
Definition schema_policy (policy : string) : bool := is_preset_name policy.

(** [z.enum([...]).optional()], the schema of the [admissionPolicy] argument of
    [verify_and_admit]. *)
Definition schema_admissionPolicy (admissionPolicy : option string) : bool :=
  match admissionPolicy with
  | Some name => is_preset_name name
  | None => true
  end.

(** [main]: the options passed to [createServer], from the value of the
    environment variable [CELLAR_DOOR_SERVER_POLICY] ([None] when unset). *)
Definition main_options (envPolicy : option string) : CreateServerOptions :=
  match envPolicy with
  | Some name =>
      if negb (String.eqb name "") && is_preset_name name
      then {| serverPolicy := Some name |}
      else {| serverPolicy := None |}
  | None => {| serverPolicy := None |}
  end.

(** ** [server.ts]: the tools of one [createServer] closure *)

Section Server.
Context {World : Type}.
Variable lib : Collaborators World.
Variable options : CreateServerOptions.

Definition generate_identity_message : string :=
  "Identity generated and stored server-side for this session. Use create_exit_marker or quick_exit to sign markers. Private key material is not exposed.".

Definition generate_identity : M World Response :=
  let* identity := call CallGenerateIdentity (generateIdentity lib) in
  do set_sessionIdentity (Some identity) then
  ret {| content := VObj [("did", VStr (did identity));
                          ("message", VStr generate_identity_message)];
         isError := false |}.

Definition quick_exit (origin : string) (exitType : option ExitType)
    (reason : option string) : M World Response :=
  let et := exitType in
  let* result := call (CallQuickExit origin et reason) (quickExit lib origin et reason) in
  do set_sessionIdentity (Some (snd result)) then
  let* verifyResult := call (CallVerifyMarker (fst result)) (verifyMarker lib (fst result)) in
  let verified := valid_of verifyResult in
  let* text := call_pure (CallToJSON (fst result)) (toJSON lib (fst result)) in
  let* marker := call_pure (CallJSONParse text) (JSON_parse lib text) in
  ret {| content := VObj [("marker", marker);
                          ("signerDid", VStr (did (snd result)));
                          ("verified", verified)];
         isError := false |}.

(** [if (!sessionIdentity) { sessionIdentity = generateIdentity(); }], then the
    identity the variable holds. *)
Definition ensure_sessionIdentity : M World Identity :=
  let* cached := get_sessionIdentity in
  match cached with
  | Some identity => ret identity
  | None =>
      let* identity := call CallGenerateIdentity (generateIdentity lib) in
      do set_sessionIdentity (Some identity) then
      ret identity
  end.

Definition create_exit_marker (origin : string) (exitType : option ExitType)
    (reason : option string) : M World Response :=
  let* identity := ensure_sessionIdentity in
  let et := match exitType with Some t => t | None => Voluntary end in
  let* marker := call (CallCreateMarker origin origin et) (createMarker lib origin origin et) in
  let* signed := call (CallSignMarker marker (privateKey identity) (publicKey identity))
                      (signMarker lib marker (privateKey identity) (publicKey identity)) in
  let* text := call_pure (CallToJSON signed) (toJSON lib signed) in
  let* value := call_pure (CallJSONParse text) (JSON_parse lib text) in
  ret {| content := VObj [("marker", value); ("signerDid", VStr (did identity))];
         isError := false |}.

Definition verify_exit_marker (markerJson : string) : M World Response :=
  try_catch
    (let* marker := call_pure (CallFromJSON markerJson) (fromJSON lib markerJson) in
     let* verifyResult := call (CallVerifyMarker marker) (verifyMarker lib marker) in
     let valid := valid_of verifyResult in
     ret {| content := VObj [("valid", valid);
                             ("subject", VStr (subject marker));
                             ("exitType", VStr (ExitType_name (exitType marker)));
                             ("timestamp", VNum (timestamp marker));
                             ("id", VStr (id marker))];
            isError := false |})
    (fun err =>
       ret {| content := VObj [("valid", VBool false);
                               ("error", VStr (message_or err "Verification failed"))];
              isError := true |}).

(** The preset table. Only the three own properties are modelled; the schemas
    and [main] admit no other name. *)
Definition admissionPresets : gmap string AdmissionPolicy :=
  {[ "OPEN_DOOR" := OPEN_DOOR lib;
     "STRICT" := STRICT lib;
     "EMERGENCY_ONLY" := EMERGENCY_ONLY lib ]}.

(** [options.serverPolicy ?? admissionPolicy ?? "OPEN_DOOR"] *)
Definition verify_and_admit_policyName (admissionPolicy : option string) : string :=
  match nullish (nullish (serverPolicy options) admissionPolicy) (Some "OPEN_DOOR") with
  | Some name => name
  | None => "OPEN_DOOR"
  end.

Definition verify_and_admit (exitMarkerJson destination : string)
    (admissionPolicy : option string) : M World Response :=
  try_catch
    (let policyName := verify_and_admit_policyName admissionPolicy in
     let* exitMarker := call_pure (CallFromJSON exitMarkerJson) (fromJSON lib exitMarkerJson) in
     let* admission :=
       call (CallEvaluateAdmission exitMarker (admissionPresets !! policyName))
            (evaluateAdmission lib exitMarker (admissionPresets !! policyName)) in
     if negb (admitted admission) then
       ret {| content := VObj [("admitted", VBool false);
                               ("reasons", strings_value (reasons admission))];
              isError := false |}
     else
       let* result := call (CallQuickEntry exitMarkerJson destination)
                           (quickEntry lib exitMarkerJson destination) in
       ret {| content := VObj [("admitted", VBool true);
                               ("arrivalMarker", arrivalMarker result);
                               ("exitMarkerId", VStr (id (entry_exitMarker result)));
                               ("continuity", continuity_value (entry_continuity result))];
              isError := false |})
    (fun err =>
       ret {| content := VObj [("admitted", VBool false); ("error", message_value err)];
              isError := true |}).

(** [options.serverPolicy ?? policy]; the schema makes [policy] a required argument. *)
Definition evaluate_admission_effectivePolicy (policy : string) : string :=
  match nullish (serverPolicy options) (Some policy) with
  | Some name => name
  | None => policy
  end.

Definition evaluate_admission (exitMarkerJson policy : string) : M World Response :=
  try_catch
    (let effectivePolicy := evaluate_admission_effectivePolicy policy in
     let* exitMarker := call_pure (CallFromJSON exitMarkerJson) (fromJSON lib exitMarkerJson) in
     let* result :=
       call (CallEvaluateAdmission exitMarker (admissionPresets !! effectivePolicy))
            (evaluateAdmission lib exitMarker (admissionPresets !! effectivePolicy)) in
     ret {| content := VObj (result_fields result ++ [("policy", VStr effectivePolicy)]);
            isError := false |})
    (fun err =>
       ret {| content := VObj [("admitted", VBool false); ("error", message_value err)];
              isError := true |}).

Definition verify_transfer (exitMarkerJson arrivalMarkerJson : string) : M World Response :=
  try_catch
    (let* exitMarker := call_pure (CallFromJSON exitMarkerJson) (fromJSON lib exitMarkerJson) in
     let* arrival := call_pure (CallJSONParse arrivalMarkerJson) (JSON_parse lib arrivalMarkerJson) in
     let* record := call (CallVerifyTransfer exitMarker arrival)
                         (verifyTransfer lib exitMarker arrival) in
     ret {| content := VObj [("verified", VBool (verified record));
                             ("transferTime", VNum (transferTime record));
                             ("errors", strings_value (errors record));
                             ("continuity", continuity_value (continuity record))];
            isError := false |})
    (fun err =>
       ret {| content := VObj [("verified", VBool false); ("error", message_value err)];
              isError := true |}).

Definition list_admission_policies : M World Response :=
  ret {| content :=
           VObj [("policies",
                  VObj [("OPEN_DOOR",
                         VObj (("description", VStr "Accept everything with a valid signature")
                               :: policy_fields (OPEN_DOOR lib)));
                        ("STRICT",
                         VObj (("description",
                                VStr "Voluntary only, <24h old, requires lineage + stateSnapshot modules")
                               :: policy_fields (STRICT lib)));
                        ("EMERGENCY_ONLY",
                         VObj (("description", VStr "Accept only emergency exits")
                               :: policy_fields (EMERGENCY_ONLY lib)))])];
         isError := false |}.

(** A tool invocation. Policy names are kept as the strings they are at run
    time; [schema_policy] and [schema_admissionPolicy] say which the schemas admit. *)
Inductive Request : Type :=
| GenerateIdentity
| QuickExit (origin : string) (exitType : option ExitType) (reason : option string)
| CreateExitMarker (origin : string) (exitType : option ExitType) (reason : option string)
| VerifyExitMarker (markerJson : string)
| VerifyAndAdmit (exitMarkerJson destination : string) (admissionPolicy : option string)
| EvaluateAdmission (exitMarkerJson policy : string)
| VerifyTransfer (exitMarkerJson arrivalMarkerJson : string)
| ListAdmissionPolicies.

Definition handle (req : Request) : M World Response :=
  match req with
  | GenerateIdentity => generate_identity
  | QuickExit origin exitType reason => quick_exit origin exitType reason
  | CreateExitMarker origin exitType reason => create_exit_marker origin exitType reason
  | VerifyExitMarker markerJson => verify_exit_marker markerJson
  | VerifyAndAdmit exitMarkerJson destination admissionPolicy =>
      verify_and_admit exitMarkerJson destination admissionPolicy
  | EvaluateAdmission exitMarkerJson policy => evaluate_admission exitMarkerJson policy
  | VerifyTransfer exitMarkerJson arrivalMarkerJson =>
      verify_transfer exitMarkerJson arrivalMarkerJson
  | ListAdmissionPolicies => list_admission_policies
  end.

(** A session: requests handled one at a time, each on the state the one before
    left. An exception that leaves a handler is recorded in place of a response. *)
Fixpoint session (reqs : list Request) (s : ServerState World)
  : list (Result Response) * ServerState World :=
  match reqs with
  | [] => ([], s)
  | req :: rest =>
      let (r, s') := handle req s in
      let (rs, s'') := session rest s' in
      (r :: rs, s'')
  end.

End Server.

(** ** The engines of cellar-door-entry *)

Module Engine.

(** Modelled from the spec: the preset [OPEN_DOOR] of cellar-door-entry, absent
    from the sources (section 3): only signature verification required. *)
Definition OPEN_DOOR_preset : AdmissionPolicy :=
  {| requireVerifiedDeparture := true; allowedExitTypes := [];
     maxAgeSeconds := None; requiredModules := [] |}.

(** Modelled from the spec: the preset [STRICT] of cellar-door-entry, absent from
    the sources (section 3): voluntary exits only, at most 24 hours old, with
    both [lineage] and [stateSnapshot]. *)
Definition STRICT_preset : AdmissionPolicy :=
  {| requireVerifiedDeparture := true; allowedExitTypes := [Voluntary];
     maxAgeSeconds := Some (24 * 3600); requiredModules := ["lineage"; "stateSnapshot"] |}.

(** Modelled from the spec: the preset [EMERGENCY_ONLY] of cellar-door-entry,
    absent from the sources (section 3): emergency exits only. *)
Definition EMERGENCY_ONLY_preset : AdmissionPolicy :=
  {| requireVerifiedDeparture := true; allowedExitTypes := [Emergency];
     maxAgeSeconds := None; requiredModules := [] |}.

(** The optional field of the marker that a module name stands for. *)
Definition module_present (m : ExitMarker) (name : string) : bool :=
  if String.eqb name "lineage" then bool_decide (is_Some (lineage m))
  else if String.eqb name "stateSnapshot" then bool_decide (is_Some (stateSnapshot m))
  else false.

Section Evaluate.
(** The signature collaborator's check of an exit marker. *)
Variable verify : ExitMarker -> bool.

Definition signature_fails (m : ExitMarker) (P : AdmissionPolicy) : bool :=
  requireVerifiedDeparture P && negb (verify m).

Definition exitType_fails (m : ExitMarker) (P : AdmissionPolicy) : bool :=
  match allowedExitTypes P with
  | [] => false
  | allowed => negb (existsb (ExitType_eqb (exitType m)) allowed)
  end.

Definition age_fails (m : ExitMarker) (P : AdmissionPolicy) (now : Z) : bool :=
  match maxAgeSeconds P with
  | Some maxAge => maxAge <? now - timestamp m
  | None => false
  end.

(** [if (failed) reasons.push(text)] *)
Definition push_if (failed : bool) (text : string) (reasons : list string) : list string :=
  if failed then reasons ++ [text] else reasons.

Definition missing_module_text (name : string) : string :=
  "missing required module: " +:+ name.

(** Modelled from the spec: [evaluateAdmission] of cellar-door-entry, absent
    from the sources (section 4.2): the four steps in order, each appending to
    [reasons], then [admitted = reasons.isEmpty()]. *)
Definition evaluate (m : ExitMarker) (P : AdmissionPolicy) (now : Z) : AdmissionResult :=
  let reasons := [] in
  let reasons := push_if (signature_fails m P) "signature invalid" reasons in
  let reasons := push_if (exitType_fails m P) "exit type not permitted" reasons in
  let reasons := push_if (age_fails m P now) "marker expired" reasons in
  let reasons :=
    fold_left (fun rs name => push_if (negb (module_present m name))
                                      (missing_module_text name) rs)
              (requiredModules P) reasons in
  {| admitted := match reasons with [] => true | _ => false end;
     reasons := reasons |}.

(** The checks a policy prescribes, in the order of section 4.2, as the
    specification's words list them. *)
Inductive Check : Type :=
| CheckSignature
| CheckExitType
| CheckAge
| CheckModule (name : string).

Definition checks (P : AdmissionPolicy) : list Check :=
  [CheckSignature; CheckExitType; CheckAge] ++ map CheckModule (requiredModules P).

Definition fails (m : ExitMarker) (P : AdmissionPolicy) (now : Z) (c : Check) : bool :=
  match c with
  | CheckSignature => signature_fails m P
  | CheckExitType => exitType_fails m P
  | CheckAge => age_fails m P now
  | CheckModule name => negb (module_present m name)
  end.

Definition reason_of (c : Check) : string :=
  match c with
  | CheckSignature => "signature invalid"
  | CheckExitType => "exit type not permitted"
  | CheckAge => "marker expired"
  | CheckModule name => missing_module_text name
  end.

(** Every failed check, in the fixed order. *)
Definition failed_checks (m : ExitMarker) (P : AdmissionPolicy) (now : Z) : list string :=
  map reason_of (List.filter (fails m P now) (checks P)).
End Evaluate.

Section VerifyTransfer.
Variable verifyExit : ExitMarker -> bool.
Variable verifyArrival : JsValue -> bool.

(** [arrivalMarker.exitMarkerId == exitMarker.id] *)
Definition references (exit : ExitMarker) (arrival : JsValue) : bool :=
  match js_field arrival "exitMarkerId" with
  | VStr i => String.eqb i (id exit)
  | _ => false
  end.

(** [arrivalMarker.timestamp >= exitMarker.timestamp]; no instant compares
    with a timestamp that is missing or not a number. *)
Definition ordered (exit : ExitMarker) (arrival : JsValue) : bool :=
  match js_field arrival "timestamp" with
  | VNum t => timestamp exit <=? t
  | _ => false
  end.

Definition elapsed (exit : ExitMarker) (arrival : JsValue) : Z :=
  match js_field arrival "timestamp" with
  | VNum t => t - timestamp exit
  | _ => 0
  end.

(** Modelled from the spec: [verifyTransfer] of cellar-door-entry, absent from
    the sources (section 4.3): two signature checks feeding [errors], the
    reference and the ordering check feeding [continuity.errors]. The texts of
    the two signature errors are not fixed by the specification. *)
Definition verifyTransfer (exit : ExitMarker) (arrival : JsValue) : TransferRecord :=
  let errors := [] in
  let errors := push_if (negb (verifyExit exit)) "exit marker signature invalid" errors in
  let errors := push_if (negb (verifyArrival arrival))
                        "arrival marker signature invalid" errors in
  let cerrors := [] in
  let cerrors := push_if (negb (references exit arrival))
                         "arrival does not reference this exit" cerrors in
  let cerrors := push_if (negb (ordered exit arrival))
                         "arrival precedes departure" cerrors in
  let continuity :=
    {| valid := match cerrors with [] => true | _ => false end;
       continuity_errors := cerrors |} in
  {| verified := match errors with [] => valid continuity | _ => false end;
     transferTime := elapsed exit arrival;
     errors := errors;
     continuity := continuity |}.
End VerifyTransfer.

End Engine.

(** ** A reference instance of the collaborators *)

(** Modelled from the spec: an instance of the collaborators, whose packages
    are absent from the sources. It puts the engines above behind the interface
    of [server.ts], with an ambient clock, a counter in place of the key
    generator's randomness, a keyed tag in place of the Ed25519 signature, and
    tables in place of the grammars of the codec and of [JSON.parse]: the text
    of a marker is its id. [evaluateAdmission] is called by [server.ts] with a
    marker and a policy only, so the [now] of section 4.2 is the ambient clock
    (section 9, "Ambient now"); called without a policy, it throws. *)
Module Reference.

Record World : Type := {
  clock : Z;
  minted : nat;
}.

Definition byte_of_nat (n : nat) : Byte.byte :=
  match Byte.of_N (N.of_nat n mod 256) with
  | Some b => b
  | None => Byte.x00
  end.

Definition mint (n : nat) : Identity :=
  {| did := "did:key:z" +:+ pretty n;
     publicKey := [Byte.x01; byte_of_nat n];
     privateKey := [Byte.x02; byte_of_nat n] |}.

Definition tag (marker_id : string) : string := "sig:" +:+ marker_id.

Definition verify (m : ExitMarker) : bool :=
  match signature m with
  | Some s => String.eqb s (tag (id m))
  | None => false
  end.

Definition verifyArrival (a : JsValue) : bool :=
  match js_field a "exitMarkerId", js_field a "signature" with
  | VStr i, VStr s => String.eqb s (tag i)
  | _, _ => false
  end.

Definition sign (m : ExitMarker) : ExitMarker :=
  {| id := id m; subject := subject m; origin := origin m; exitType := exitType m;
     timestamp := timestamp m; reason := reason m; lineage := lineage m;
     stateSnapshot := stateSnapshot m; signature := Some (tag (id m)) |}.

Definition fresh_marker (subject origin : string) (t : ExitType)
    (reason : option string) (w : World) : ExitMarker :=
  {| id := "exit:" +:+ pretty (clock w) +:+ ":" +:+ subject;
     subject := subject; origin := origin; exitType := t;
     timestamp := clock w; reason := reason; lineage := None;
     stateSnapshot := None; signature := None |}.

(** The public fields of a marker, as data. *)
Definition marker_value (m : ExitMarker) : JsValue :=
  VObj [("id", VStr (id m)); ("subject", VStr (subject m)); ("origin", VStr (origin m));
        ("exitType", VStr (ExitType_name (exitType m))); ("timestamp", VNum (timestamp m));
        ("signature", match signature m with Some s => VStr s | None => VUndefined end)].

Definition decode_error : JsError := {| message := Some "Invalid marker JSON" |}.
Definition syntax_error : JsError := {| message := Some "Unexpected token in JSON" |}.
Definition policy_error : JsError :=
  {| message := Some "Cannot read properties of undefined" |}.

Section Tables.
(** The markers the codec knows the text of, and further texts [JSON.parse] accepts. *)
Variable known : list ExitMarker.
Variable texts : gmap string JsValue.

Definition decode (text : string) : Result ExitMarker :=
  match find (fun m => String.eqb (id m) text) known with
  | Some m => Ok m
  | None => Throw decode_error
  end.

Definition parse (text : string) : Result JsValue :=
  match find (fun m => String.eqb (id m) text) known with
  | Some m => Ok (marker_value m)
  | None =>
      match texts !! text with
      | Some v => Ok v
      | None => Throw syntax_error
      end
  end.

Definition lib : Collaborators World :=
  {| generateIdentity := fun w =>
       (Ok (mint (minted w)), {| clock := clock w; minted := S (minted w) |});
     quickExit := fun origin et reason w =>
       let identity := mint (minted w) in
       let t := match et with Some t => t | None => Voluntary end in
       (Ok (sign (fresh_marker (did identity) origin t reason w), identity),
        {| clock := clock w; minted := S (minted w) |});
     createMarker := fun subject origin t w =>
       (Ok (fresh_marker subject origin t None w), w);
     signMarker := fun m _ _ w => (Ok (sign m), w);
     verifyMarker := fun m w =>
       (Ok (VObj [("valid", VBool (verify m)); ("errors", VArr [])]), w);
     toJSON := fun m => Ok (id m);
     fromJSON := decode;
     JSON_parse := parse;
     evaluateAdmission := fun m policy w =>
       match policy with
       | Some P => (Ok (Engine.evaluate verify m P (clock w)), w)
       | None => (Throw policy_error, w)
       end;
     quickEntry := fun text destination w =>
       match decode text with
       | Ok m =>
           let arrival :=
             VObj [("exitMarkerId", VStr (id m)); ("destination", VStr destination);
                   ("timestamp", VNum (clock w)); ("signature", VStr (tag (id m)))] in
           (Ok {| arrivalMarker := arrival; entry_exitMarker := m;
                  entry_continuity :=
                    continuity (Engine.verifyTransfer verify verifyArrival m arrival) |},
            {| clock := clock w; minted := S (minted w) |})
       | Throw err => (Throw err, w)
       end;
     verifyTransfer := fun m arrival w =>
       (Ok (Engine.verifyTransfer verify verifyArrival m arrival), w);
     OPEN_DOOR := Engine.OPEN_DOOR_preset;
     STRICT := Engine.STRICT_preset;
     EMERGENCY_ONLY := Engine.EMERGENCY_ONLY_preset |}.
End Tables.

Definition start (now : Z) : ServerState World :=
  {| sessionIdentity := None; world := {| clock := now; minted := 0 |}; trace := [] |}.

(** A signed voluntary departure at instant 1000, with both modules. *)
Definition departure : ExitMarker :=
  {| id := "exit:1000:alice"; subject := "alice"; origin := "did:example:source";
     exitType := Voluntary; timestamp := 1000; reason := None;
     lineage := Some (VObj []); stateSnapshot := Some (VObj []);
     signature := Some (tag "exit:1000:alice") |}.

(** The markers a session started at instant 5 mints for [did:example:a]:
    by [quick_exit] after one identity was generated, and by [create_exit_marker]. *)
Definition quick_marker : ExitMarker :=
  sign (fresh_marker (did (mint 1)) "did:example:a" Voluntary None
                     {| clock := 5; minted := 1 |}).

Definition created_marker : ExitMarker :=
  sign (fresh_marker "did:example:a" "did:example:a" Voluntary None
                     {| clock := 5; minted := 1 |}).

Definition known : list ExitMarker := [departure; quick_marker; created_marker].

(** Two arrival texts: an empty object, and an arrival that names another exit. *)
Definition stray_arrival : JsValue :=
  VObj [("exitMarkerId", VStr "exit:7:bob"); ("destination", VStr "did:example:dest");
        ("timestamp", VNum 2000); ("signature", VStr (tag "exit:7:bob"))].

Definition texts : gmap string JsValue :=
  {[ "{}" := VObj []; "{stray}" := stray_arrival ]}.

Definition reference : Collaborators World := lib known texts.

(** The record of the departure against the stray arrival. *)
Definition stray_record : TransferRecord :=
  Engine.verifyTransfer verify verifyArrival departure stray_arrival.

End Reference.

(** ** Requests by the part of the session they touch *)

(** The tools whose handlers assign or read [sessionIdentity]. *)
Definition touches_identity (req : Request) : bool :=
  match req with
  | GenerateIdentity | QuickExit _ _ _ | CreateExitMarker _ _ _ => true
  | _ => false
  end.

Definition is_create (req : Request) : bool :=
  match req with
  | CreateExitMarker _ _ _ => true
  | _ => false
  end.

(** The state with another value in the [sessionIdentity] variable. *)
Definition with_identity {World : Type} (i : option Identity) (s : ServerState World)
  : ServerState World :=
  {| sessionIdentity := i; world := world s; trace := trace s |}.

(** The identity with another private key under the same DID and public key. *)
Definition with_privateKey (k : Key) (i : Identity) : Identity :=
  {| did := did i; publicKey := publicKey i; privateKey := k |}.

(** ** An arrival that matches the departure *)

(** Modelled from the spec: the reference instance with one more text for
    [JSON.parse], an arrival at instant 2000 that names the departure and
    carries its tag. *)
Module Arrivals.

Definition matching_arrival : JsValue :=
  VObj [("exitMarkerId", VStr "exit:1000:alice"); ("destination", VStr "did:example:dest");
        ("timestamp", VNum 2000); ("signature", VStr (Reference.tag "exit:1000:alice"))].

Definition texts : gmap string JsValue := {[ "{arrival}" := matching_arrival ]}.

Definition reference : Collaborators Reference.World :=
  Reference.lib Reference.known texts.

End Arrivals.

(** ** Collaborators that fail *)

(** Modelled from the spec: the reference instance with one operation that
    throws, for the paths of [server.ts] on which a collaborator fails. *)
Module Faults.

Definition verification_error : JsError :=
  {| message := Some "Signature verification failed" |}.

Definition generation_error : JsError := {| message := Some "No entropy" |}.

Definition silent_error : JsError := {| message := None |}.

(** [verifyMarker] throws. *)
Definition broken_verifier : Collaborators Reference.World :=
  {| generateIdentity := generateIdentity Reference.reference;
     quickExit := quickExit Reference.reference;
     createMarker := createMarker Reference.reference;
     signMarker := signMarker Reference.reference;
     verifyMarker := fun _ w => (Throw verification_error, w);
     toJSON := toJSON Reference.reference;
     fromJSON := fromJSON Reference.reference;
     JSON_parse := JSON_parse Reference.reference;
     evaluateAdmission := evaluateAdmission Reference.reference;
     quickEntry := quickEntry Reference.reference;
     verifyTransfer := verifyTransfer Reference.reference;
     OPEN_DOOR := OPEN_DOOR Reference.reference;
     STRICT := STRICT Reference.reference;
     EMERGENCY_ONLY := EMERGENCY_ONLY Reference.reference |}.

(** [generateIdentity] throws. *)
Definition broken_generator : Collaborators Reference.World :=
  {| generateIdentity := fun w => (Throw generation_error, w);
     quickExit := quickExit Reference.reference;
     createMarker := createMarker Reference.reference;
     signMarker := signMarker Reference.reference;
     verifyMarker := verifyMarker Reference.reference;
     toJSON := toJSON Reference.reference;
     fromJSON := fromJSON Reference.reference;
     JSON_parse := JSON_parse Reference.reference;
     evaluateAdmission := evaluateAdmission Reference.reference;
     quickEntry := quickEntry Reference.reference;
     verifyTransfer := verifyTransfer Reference.reference;
     OPEN_DOOR := OPEN_DOOR Reference.reference;
     STRICT := STRICT Reference.reference;
     EMERGENCY_ONLY := EMERGENCY_ONLY Reference.reference |}.

(** [signMarker] throws. *)
Definition broken_signer : Collaborators Reference.World :=
  {| generateIdentity := generateIdentity Reference.reference;
     quickExit := quickExit Reference.reference;
     createMarker := createMarker Reference.reference;
     signMarker := fun _ _ _ w => (Throw silent_error, w);
     verifyMarker := verifyMarker Reference.reference;
     toJSON := toJSON Reference.reference;
     fromJSON := fromJSON Reference.reference;
     JSON_parse := JSON_parse Reference.reference;
     evaluateAdmission := evaluateAdmission Reference.reference;
     quickEntry := quickEntry Reference.reference;
     verifyTransfer := verifyTransfer Reference.reference;
     OPEN_DOOR := OPEN_DOOR Reference.reference;
     STRICT := STRICT Reference.reference;
     EMERGENCY_ONLY := EMERGENCY_ONLY Reference.reference |}.

(** [quickEntry] throws. *)
Definition broken_entry : Collaborators Reference.World :=
  {| generateIdentity := generateIdentity Reference.reference;
     quickExit := quickExit Reference.reference;
     createMarker := createMarker Reference.reference;
     signMarker := signMarker Reference.reference;
     verifyMarker := verifyMarker Reference.reference;
     toJSON := toJSON Reference.reference;
     fromJSON := fromJSON Reference.reference;
     JSON_parse := JSON_parse Reference.reference;
     evaluateAdmission := evaluateAdmission Reference.reference;
     quickEntry := fun _ _ w => (Throw silent_error, w);
     verifyTransfer := verifyTransfer Reference.reference;
     OPEN_DOOR := OPEN_DOOR Reference.reference;
     STRICT := STRICT Reference.reference;
     EMERGENCY_ONLY := EMERGENCY_ONLY Reference.reference |}.

End Faults.

(** * Properties *)

(** ** Running the monad *)

Ltac run :=
  unfold try_catch, bind, call_pure, call, ret, throw,
    get_sessionIdentity, set_sessionIdentity; simpl.

Lemma trace_two {A} (t : list A) (a b : A) : (t ++ [a]) ++ [b] = t ++ [a; b].
Proof. now rewrite <- app_assoc. Qed.

Lemma trace_three {A} (t : list A) (a b c : A) : ((t ++ [a]) ++ [b]) ++ [c] = t ++ [a; b; c].
Proof. now rewrite <- !app_assoc. Qed.

(** ** The preset table and the resolved name *)

Section Resolution.
Context {World : Type}.
Variable lib : Collaborators World.

Lemma presets_OPEN_DOOR : admissionPresets lib !! "OPEN_DOOR" = Some (OPEN_DOOR lib).
Proof. reflexivity. Qed.

Lemma presets_STRICT : admissionPresets lib !! "STRICT" = Some (STRICT lib).
Proof. reflexivity. Qed.

Lemma presets_EMERGENCY_ONLY :
  admissionPresets lib !! "EMERGENCY_ONLY" = Some (EMERGENCY_ONLY lib).
Proof. reflexivity. Qed.

Lemma is_preset_name_cases name :
  is_preset_name name = true ->
  name = "OPEN_DOOR" \/ name = "STRICT" \/ name = "EMERGENCY_ONLY".
Proof.
  unfold is_preset_name, preset_names. simpl.
  rewrite !orb_true_iff, !String.eqb_eq. intuition discriminate.
Qed.

Lemma presets_defined name :
  is_preset_name name = true ->
  exists P, admissionPresets lib !! name = Some P /\
            In P [OPEN_DOOR lib; STRICT lib; EMERGENCY_ONLY lib].
Proof.
  intros H. destruct (is_preset_name_cases name H) as [-> | [-> | ->]].
  - exists (OPEN_DOOR lib). split; [reflexivity | simpl; auto].
  - exists (STRICT lib). split; [reflexivity | simpl; auto].
  - exists (EMERGENCY_ONLY lib). split; [reflexivity | simpl; auto].
Qed.



Lemma main_options_cases env :
  serverPolicy (main_options env) = None \/
  exists name, serverPolicy (main_options env) = Some name /\ is_preset_name name = true.
Proof.
  destruct env as [name |]; simpl; [| now left].
  destruct (negb (name =? ""))%string; simpl; [| now left].
  destruct (is_preset_name name) eqn:E; simpl; [right; eauto | now left].
Qed.
End Resolution.

(** ** The policy handed to the evaluation *)

Section EvaluationCalls.
Context {World : Type}.
Variable lib : Collaborators World.
Variable options : CreateServerOptions.

(** The calls of [verify_and_admit] on a marker that decodes: the codec, one
    evaluation against the preset of the resolved name, and [quickEntry] or not. *)
Lemma verify_and_admit_calls exitMarkerJson destination admissionPolicy s m :
  fromJSON lib exitMarkerJson = Ok m ->
  let policy := admissionPresets lib !! verify_and_admit_policyName options admissionPolicy in
  let s' := snd (verify_and_admit lib options exitMarkerJson destination admissionPolicy s) in
  trace s' = trace s ++ [CallFromJSON exitMarkerJson; CallEvaluateAdmission m policy] \/
  trace s' = trace s ++ [CallFromJSON exitMarkerJson; CallEvaluateAdmission m policy;
                         CallQuickEntry exitMarkerJson destination].
Proof.
  intros Hm policy. unfold verify_and_admit. run. rewrite Hm. simpl. fold policy.
  destruct (evaluateAdmission lib m policy (world s)) as [[admission | err] w]; simpl.
  - destruct (admitted admission); simpl.
    + destruct (quickEntry lib exitMarkerJson destination w) as [[result | err] w']; simpl;
        right; now rewrite trace_three.
    + left. now rewrite trace_two.
  - left. now rewrite trace_two.
Qed.

End EvaluationCalls.



(** C2, as stated, fails: the deployment names the policy [STRICTT], which is
    no preset; [main] leaves [serverPolicy] unset and raises nothing, and a
    request without a policy name resolves to [OPEN_DOOR] and finds the
    [OPEN_DOOR] preset, as if nothing had been configured. *)
Lemma unknown_server_policy_defaults :
  is_preset_name "STRICTT" = false /\
  serverPolicy (main_options (Some "STRICTT")) = None /\
  verify_and_admit_policyName (main_options (Some "STRICTT")) None = "OPEN_DOOR" /\
  admissionPresets Reference.reference
    !! verify_and_admit_policyName (main_options (Some "STRICTT")) None
  = Some (OPEN_DOOR Reference.reference).
Proof. repeat split. Qed.

(** What the typing slip costs on the reference collaborators: a departure that
    [STRICT] refuses as expired is admitted. *)
Example unknown_server_policy_admits :
  fst (verify_and_admit Reference.reference (main_options (Some "STRICTT"))
         "exit:1000:alice" "did:example:dest" None (Reference.start 500000))
  = Ok {| content :=
            VObj [("admitted", VBool true);
                  ("arrivalMarker",
                   VObj [("exitMarkerId", VStr "exit:1000:alice");
                         ("destination", VStr "did:example:dest");
                         ("timestamp", VNum 500000);
                         ("signature", VStr "sig:exit:1000:alice")]);
                  ("exitMarkerId", VStr "exit:1000:alice");
                  ("continuity", VObj [("valid", VBool true); ("errors", VArr [])])];
          isError := false |} /\
  fst (verify_and_admit Reference.reference (main_options (Some "STRICT"))
         "exit:1000:alice" "did:example:dest" None (Reference.start 500000))
  = Ok {| content := VObj [("admitted", VBool false);
                           ("reasons", VArr [VStr "marker expired"])];
          isError := false |}.
Proof. split; vm_compute; reflexivity. Qed.

(** C2, amended. A deployment-configured name outside the three presets is
    dropped by [main]: the options are those of a deployment that configures
    nothing. What [main] does configure is a preset name, and with a caller
    name that the schema admits (or none, in [verify_and_admit]) the resolved
    name is always found in the preset table. *)
Theorem unknown_server_policy_ignored :
  forall (World : Type) (lib : Collaborators World) (name : string),
    is_preset_name name = false ->
    main_options (Some name) = main_options None /\
    (forall env caller,
        schema_admissionPolicy caller = true ->
        exists P,
          admissionPresets lib !! verify_and_admit_policyName (main_options env) caller = Some P /\
          In P [OPEN_DOOR lib; STRICT lib; EMERGENCY_ONLY lib]) /\
    (forall env policy,
        schema_policy policy = true ->
        exists P,
          admissionPresets lib !! evaluate_admission_effectivePolicy (main_options env) policy
          = Some P /\
          In P [OPEN_DOOR lib; STRICT lib; EMERGENCY_ONLY lib]).
Proof.
  intros World lib name Hname. repeat split.
  - simpl. rewrite Hname. now rewrite andb_false_r.
  - intros env caller Hcaller. apply presets_defined.
    unfold verify_and_admit_policyName.
    destruct (main_options_cases env) as [-> | (n & -> & Hn)]; simpl; [| exact Hn].
    destruct caller; simpl; [exact Hcaller | reflexivity].
  - intros env policy Hpolicy. apply presets_defined.
    unfold evaluate_admission_effectivePolicy.
    destruct (main_options_cases env) as [-> | (n & -> & Hn)]; simpl; [exact Hpolicy | exact Hn].
Qed.

Lemma unknown_server_policy_ignored_witness :
  main_options (Some "STRICTT") = main_options None.
Proof.
  exact (proj1 (unknown_server_policy_ignored Reference.World Reference.reference
                  "STRICTT" eq_refl)).
Defined.

(** ** Refused admissions *)

(** C3. When the evaluation of a decoded exit marker yields [admitted == false],
    [verify_and_admit] returns, without throwing, the payload
    [{admitted: false, reasons}] with no error flag and no arrival marker; the
    only collaborators called are the codec and the evaluation, so no arrival
    is created or signed. *)
Theorem refused_admission_is_a_result :
  forall (World : Type) (lib : Collaborators World) (options : CreateServerOptions)
         (exitMarkerJson destination : string) (admissionPolicy : option string)
         (s : ServerState World) (m : ExitMarker) (admission : AdmissionResult) (w : World),
    let policy := admissionPresets lib !! verify_and_admit_policyName options admissionPolicy in
    fromJSON lib exitMarkerJson = Ok m ->
    evaluateAdmission lib m policy (world s) = (Ok admission, w) ->
    admitted admission = false ->
    verify_and_admit lib options exitMarkerJson destination admissionPolicy s =
    (Ok {| content := VObj [("admitted", VBool false);
                            ("reasons", strings_value (reasons admission))];
           isError := false |},
     {| sessionIdentity := sessionIdentity s;
        world := w;
        trace := trace s ++ [CallFromJSON exitMarkerJson; CallEvaluateAdmission m policy] |}).
Proof.
  intros World lib options json dest caller s m admission w policy Hm He Ha.
  unfold verify_and_admit. run. rewrite Hm. simpl.
  fold policy. rewrite He. simpl. rewrite Ha. simpl.
  now rewrite trace_two.
Qed.

Lemma refused_admission_is_a_result_witness :
  verify_and_admit Reference.reference {| serverPolicy := Some "STRICT" |}
    "exit:1000:alice" "did:example:dest" None (Reference.start 500000) =
  (Ok {| content := VObj [("admitted", VBool false);
                          ("reasons", VArr [VStr "marker expired"])];
         isError := false |},
   {| sessionIdentity := None;
      world := {| Reference.clock := 500000; Reference.minted := 0 |};
      trace := [CallFromJSON "exit:1000:alice";
                CallEvaluateAdmission Reference.departure (Some Engine.STRICT_preset)] |}).
Proof.
  exact (refused_admission_is_a_result Reference.World Reference.reference
           {| serverPolicy := Some "STRICT" |} "exit:1000:alice" "did:example:dest" None
           (Reference.start 500000) Reference.departure
           {| admitted := false; reasons := ["marker expired"] |}
           {| Reference.clock := 500000; Reference.minted := 0 |}
           eq_refl eq_refl eq_refl).
Defined.

(** ** The default policy *)



(** ** The clock of the evaluation *)

(** C5, as stated, fails: [evaluate_admission] has no time among its arguments
    and hands none to the evaluation; the same request, marker and policy are
    admitted at clock 1500 and refused as expired at clock 500000. *)
Lemma evaluation_reads_ambient_clock :
  fst (evaluate_admission Reference.reference {| serverPolicy := None |}
         "exit:1000:alice" "STRICT" (Reference.start 1500))
  = Ok {| content := VObj [("admitted", VBool true); ("reasons", VArr []);
                           ("policy", VStr "STRICT")];
          isError := false |} /\
  fst (evaluate_admission Reference.reference {| serverPolicy := None |}
         "exit:1000:alice" "STRICT" (Reference.start 500000))
  = Ok {| content := VObj [("admitted", VBool false);
                           ("reasons", VArr [VStr "marker expired"]);
                           ("policy", VStr "STRICT")];
          isError := false |}.
Proof. split; vm_compute; reflexivity. Qed.

Section AmbientWorld.
Context {World : Type}.
Variable lib : Collaborators World.
Variable options : CreateServerOptions.

(** The response of the two admission tools depends on the session through
    the ambient world only. *)
Lemma admission_tools_read_world exitMarkerJson destination policy admissionPolicy s1 s2 :
  world s1 = world s2 ->
  fst (evaluate_admission lib options exitMarkerJson policy s1)
  = fst (evaluate_admission lib options exitMarkerJson policy s2) /\
  fst (verify_and_admit lib options exitMarkerJson destination admissionPolicy s1)
  = fst (verify_and_admit lib options exitMarkerJson destination admissionPolicy s2).
Proof.
  intros Hw. unfold evaluate_admission, verify_and_admit. run. rewrite Hw. split.
  - destruct (fromJSON lib exitMarkerJson) as [m | err]; simpl; [| reflexivity].
    destruct (evaluateAdmission lib m _ (world s2)) as [[result | err] w]; reflexivity.
  - destruct (fromJSON lib exitMarkerJson) as [m | err]; simpl; [| reflexivity].
    destruct (evaluateAdmission lib m _ (world s2)) as [[admission | err] w]; simpl;
      [| reflexivity].
    destruct (admitted admission); simpl; [| reflexivity].
    destruct (quickEntry lib exitMarkerJson destination w) as [[result | err] w']; reflexivity.
Qed.
End AmbientWorld.

(** On the reference collaborators the world is read by the evaluation for
    its clock only. *)
Lemma reference_evaluation_reads_clock known texts options exitMarkerJson policy
    (s1 s2 : ServerState Reference.World) :
  Reference.clock (world s1) = Reference.clock (world s2) ->
  fst (evaluate_admission (Reference.lib known texts) options exitMarkerJson policy s1)
  = fst (evaluate_admission (Reference.lib known texts) options exitMarkerJson policy s2).
Proof.
  intros Hclock. unfold evaluate_admission. run.
  destruct (Reference.decode known exitMarkerJson) as [m | err]; simpl; [| reflexivity].
  destruct (admissionPresets (Reference.lib known texts) !! _) as [P |]; simpl;
    [now rewrite Hclock | reflexivity].
Qed.

(** C5, amended. The admission tools have no time among their arguments and
    hand none to the evaluation: on a marker that decodes, [evaluate_admission]
    is one call of [evaluateAdmission] with the marker and the preset of the
    resolved name, in the ambient world of the moment, and its response is
    built from what that call returns; [verify_and_admit] makes the same call
    before anything else. Their responses depend on the session through the
    ambient world only: the same request in the same world gets the same
    response, whatever identity and history the session holds. With the engine
    of section 4.2 run at the ambient clock, the same clock reading suffices. *)
Theorem evaluation_determined_by_clock :
  forall (World : Type) (lib : Collaborators World) (options : CreateServerOptions)
         (exitMarkerJson : string),
    (forall policy s m,
        fromJSON lib exitMarkerJson = Ok m ->
        let name := evaluate_admission_effectivePolicy options policy in
        let call := evaluateAdmission lib m (admissionPresets lib !! name) (world s) in
        evaluate_admission lib options exitMarkerJson policy s =
        (Ok match fst call with
            | Ok result =>
                {| content := VObj [("admitted", VBool (admitted result));
                                    ("reasons", strings_value (reasons result));
                                    ("policy", VStr name)];
                   isError := false |}
            | Throw err =>
                {| content := VObj [("admitted", VBool false); ("error", message_value err)];
                   isError := true |}
            end,
         {| sessionIdentity := sessionIdentity s;
            world := snd call;
            trace := trace s ++ [CallFromJSON exitMarkerJson;
                                 CallEvaluateAdmission m (admissionPresets lib !! name)] |})) /\
    (forall destination admissionPolicy s m,
        fromJSON lib exitMarkerJson = Ok m ->
        let policy :=
          admissionPresets lib !! verify_and_admit_policyName options admissionPolicy in
        let s' := snd (verify_and_admit lib options exitMarkerJson destination
                         admissionPolicy s) in
        trace s' = trace s ++ [CallFromJSON exitMarkerJson; CallEvaluateAdmission m policy] \/
        trace s' = trace s ++ [CallFromJSON exitMarkerJson; CallEvaluateAdmission m policy;
                               CallQuickEntry exitMarkerJson destination]) /\
    (forall destination policy admissionPolicy s1 s2,
        world s1 = world s2 ->
        fst (evaluate_admission lib options exitMarkerJson policy s1)
        = fst (evaluate_admission lib options exitMarkerJson policy s2) /\
        fst (verify_and_admit lib options exitMarkerJson destination admissionPolicy s1)
        = fst (verify_and_admit lib options exitMarkerJson destination admissionPolicy s2)) /\
    (forall known texts policy (s1 s2 : ServerState Reference.World),
        Reference.clock (world s1) = Reference.clock (world s2) ->
        fst (evaluate_admission (Reference.lib known texts) options exitMarkerJson policy s1)
        = fst (evaluate_admission (Reference.lib known texts) options exitMarkerJson policy s2)).
Proof.
  intros World lib options json. split; [| split; [| split]].
  - intros policy s m Hm name call. subst call. unfold evaluate_admission. run.
    rewrite Hm. simpl. fold name.
    destruct (evaluateAdmission lib m (admissionPresets lib !! name) (world s))
      as [[result | err] w]; simpl; now rewrite trace_two.
  - intros dest p s m Hm. exact (verify_and_admit_calls lib options json dest p s m Hm).
  - intros dest policy p s1 s2 Hw. now apply admission_tools_read_world.
  - intros known texts policy s1 s2 Hclock. now apply reference_evaluation_reads_clock.
Qed.

Lemma evaluation_determined_by_clock_witness :
  fst (evaluate_admission Reference.reference {| serverPolicy := None |}
         "exit:1000:alice" "STRICT" (Reference.start 1500)) =
  fst (evaluate_admission Reference.reference {| serverPolicy := None |}
         "exit:1000:alice" "STRICT"
         {| sessionIdentity := Some (Reference.mint 3);
            world := {| Reference.clock := 1500; Reference.minted := 4 |};
            trace := [CallGenerateIdentity] |}).
Proof.
  exact (proj2 (proj2 (proj2
           (evaluation_determined_by_clock Reference.World Reference.reference
              {| serverPolicy := None |} "exit:1000:alice")))
           Reference.known Reference.texts "STRICT" (Reference.start 1500)
           {| sessionIdentity := Some (Reference.mint 3);
              world := {| Reference.clock := 1500; Reference.minted := 4 |};
              trace := [CallGenerateIdentity] |}
           eq_refl).
Defined.

(** ** The session identity *)

(** Where a [signMarker] call in a grown trace comes from: the last call or the trace before. *)
Ltac sign_cases H :=
  repeat (apply in_app_or in H;
          destruct H as [H | [H | []]];
          [| first [discriminate H | inversion H; subst; auto]]);
  auto.

Section SessionIdentity.
Context {World : Type}.
Variable lib : Collaborators World.

(** [create_exit_marker] on a session that holds an identity: nothing is
    generated, the marker is signed with the keys held, and the identity stays. *)
Lemma create_exit_marker_reuses_identity origin exitType reason s identity :
  sessionIdentity s = Some identity ->
  let s' := snd (create_exit_marker lib origin exitType reason s) in
  sessionIdentity s' = Some identity /\
  List.filter is_generation (trace s') = List.filter is_generation (trace s) /\
  (forall m priv pub,
      In (CallSignMarker m priv pub) (trace s') ->
      In (CallSignMarker m priv pub) (trace s) \/
      (priv = privateKey identity /\ pub = publicKey identity)).
Proof.
  intros Hid. unfold create_exit_marker, ensure_sessionIdentity. run. rewrite Hid. simpl.
  destruct (createMarker lib origin origin _ (world s)) as [[marker | err] w]; simpl;
    [destruct (signMarker lib marker _ _ w) as [[signed | err] w']; simpl;
     [destruct (toJSON lib signed) as [text | err]; simpl;
      [destruct (JSON_parse lib text) as [value | err]; simpl |] |] |];
    rewrite ?List.filter_app, ?app_nil_r; simpl; rewrite ?app_nil_r;
    (split; [simpl; auto | split; [reflexivity |]]);
    intros m priv pub H; sign_cases H.
Qed.

(** [quick_exit] never reads [sessionIdentity]: its response is the same
    whatever the session holds. *)
Lemma quick_exit_response_independent origin exitType reason i1 i2 w t :
  fst (quick_exit lib origin exitType reason
         {| sessionIdentity := i1; world := w; trace := t |}) =
  fst (quick_exit lib origin exitType reason
         {| sessionIdentity := i2; world := w; trace := t |}).
Proof.
  unfold quick_exit. run.
  destruct (quickExit lib origin exitType reason w) as [[[m identity] | err] w1]; simpl;
    [| reflexivity].
  destruct (verifyMarker lib m w1) as [[v | err] w2]; simpl; [| reflexivity].
  destruct (toJSON lib m) as [text | err]; simpl; [| reflexivity].
  destruct (JSON_parse lib text) as [value | err]; reflexivity.
Qed.

(** After [quick_exit], the session holds the identity that [quickExit] returned. *)
Lemma quick_exit_overwrites origin exitType reason s m identity w :
  quickExit lib origin exitType reason (world s) = (Ok (m, identity), w) ->
  sessionIdentity (snd (quick_exit lib origin exitType reason s)) = Some identity.
Proof.
  intros H. unfold quick_exit. run. rewrite H. simpl.
  destruct (verifyMarker lib m w) as [[v | err] w2]; simpl; [| reflexivity].
  destruct (toJSON lib m) as [text | err]; simpl; [| reflexivity].
  destruct (JSON_parse lib text) as [value | err]; reflexivity.
Qed.
End SessionIdentity.

(** C6, where the code departs from it. [quick_exit] does not consult the
    cached identity: its response is the same whatever the session holds. In a
    session that generates an identity and then calls [quick_exit], the marker is
    signed by a second identity, which replaces the first in the cache; the
    first is never handed to a signing call. *)
Theorem quick_exit_ignores_cached_identity :
  (forall (World : Type) (lib : Collaborators World) origin exitType reason i1 i2 w t,
      fst (quick_exit lib origin exitType reason
             {| sessionIdentity := i1; world := w; trace := t |}) =
      fst (quick_exit lib origin exitType reason
             {| sessionIdentity := i2; world := w; trace := t |})) /\
  (let run := session Reference.reference {| serverPolicy := None |}
                [GenerateIdentity; QuickExit "did:example:a" None None] (Reference.start 5) in
   map (fun r => match r with
                 | Ok resp => (js_field (content resp) "did", js_field (content resp) "signerDid")
                 | Throw _ => (VUndefined, VUndefined)
                 end) (fst run)
   = [(VStr "did:key:z0", VUndefined); (VUndefined, VStr "did:key:z1")] /\
   sessionIdentity (snd run) = Some (Reference.mint 1) /\
   List.filter is_generation (trace (snd run))
   = [CallGenerateIdentity; CallQuickExit "did:example:a" None None] /\
   flat_map call_privateKeys (trace (snd run)) = []).
Proof.
  split.
  - intros. apply quick_exit_response_independent.
  - vm_compute. repeat split; reflexivity.
Qed.

(** ** The admission engine *)

Section EvaluateFacts.
Variable verify : ExitMarker -> bool.

Lemma push_if_app failed text (acc : list string) :
  Engine.push_if failed text acc = acc ++ (if failed then [text] else []).
Proof. destruct failed; simpl; [reflexivity | now rewrite app_nil_r]. Qed.

Lemma modules_fold m now P mods (acc : list string) :
  fold_left (fun rs name => Engine.push_if (negb (Engine.module_present m name))
                                           (Engine.missing_module_text name) rs) mods acc
  = acc ++ map Engine.reason_of
             (List.filter (Engine.fails verify m P now) (map Engine.CheckModule mods)).
Proof.
  revert acc. induction mods as [| name mods IH]; intros acc; simpl.
  - now rewrite app_nil_r.
  - rewrite IH, push_if_app.
    destruct (negb (Engine.module_present m name)); simpl.
    + now rewrite <- app_assoc.
    + now rewrite app_nil_r.
Qed.

Lemma evaluate_reasons m P now :
  reasons (Engine.evaluate verify m P now) = Engine.failed_checks verify m P now.
Proof.
  unfold Engine.evaluate, Engine.failed_checks, Engine.checks. simpl reasons.
  rewrite (modules_fold m now P), !push_if_app. simpl.
  destruct (Engine.signature_fails verify m P), (Engine.exitType_fails m P),
    (Engine.age_fails m P now); reflexivity.
Qed.

Lemma evaluate_admitted m P now :
  admitted (Engine.evaluate verify m P now) = false <->
  reasons (Engine.evaluate verify m P now) <> [].
Proof.
  unfold Engine.evaluate. simpl.
  destruct (fold_left _ _ _); split; intros H; congruence.
Qed.
End EvaluateFacts.

(** C7. For every policy and marker (and signature check and instant), the
    engine's [admitted] is false exactly when [reasons] is non-empty, and
    [reasons] is the list of all failed checks in the order signature, exit
    type, age, required modules: each failed check of the policy has its reason
    in the list. *)
Theorem evaluate_lists_every_failure :
  forall (verify : ExitMarker -> bool) (m : ExitMarker) (P : AdmissionPolicy) (now : Z),
    let r := Engine.evaluate verify m P now in
    (admitted r = false <-> reasons r <> []) /\
    (admitted r = true <-> reasons r = []) /\
    reasons r = map Engine.reason_of
                    (List.filter (Engine.fails verify m P now) (Engine.checks P)) /\
    (forall c, In c (Engine.checks P) -> Engine.fails verify m P now c = true ->
               In (Engine.reason_of c) (reasons r)).
Proof.
  intros verify m P now r. subst r.
  split; [apply evaluate_admitted |].
  split.
  { pose proof (evaluate_admitted verify m P now) as H.
    destruct (admitted (Engine.evaluate verify m P now));
      destruct (reasons (Engine.evaluate verify m P now)); split; intros; try congruence.
    - assert (true = false) by (apply (proj2 H); congruence). discriminate.
    - destruct (proj1 H eq_refl). reflexivity. }
  split; [apply evaluate_reasons |].
  intros c Hin Hfail. rewrite evaluate_reasons. unfold Engine.failed_checks.
  apply in_map, filter_In. auto.
Qed.

(** The scenarios of section 8 on the engine, with the reference signature check. *)
Example strict_admits_fresh_voluntary :
  Engine.evaluate Reference.verify Reference.departure Engine.STRICT_preset 1000
  = {| admitted := true; reasons := [] |}.
Proof. reflexivity. Qed.

Example strict_refuses_after_48h :
  Engine.evaluate Reference.verify Reference.departure Engine.STRICT_preset (1000 + 48 * 3600)
  = {| admitted := false; reasons := ["marker expired"] |}.
Proof. reflexivity. Qed.

Example strict_accumulates_reasons :
  Engine.evaluate Reference.verify
    {| id := "exit:1000:carol"; subject := "carol"; origin := "did:example:source";
       exitType := Emergency; timestamp := 1000; reason := None;
       lineage := None; stateSnapshot := Some VNull; signature := None |}
    Engine.STRICT_preset (1000 + 48 * 3600)
  = {| admitted := false;
       reasons := ["signature invalid"; "exit type not permitted"; "marker expired";
                   "missing required module: lineage"] |}.
Proof. reflexivity. Qed.

(** ** The continuity verifier *)

Section VerifyTransferFacts.
Variable verifyExit : ExitMarker -> bool.
Variable verifyArrival : JsValue -> bool.

Lemma references_true exit arrival :
  Engine.references exit arrival = true <->
  js_field arrival "exitMarkerId" = VStr (id exit).
Proof.
  unfold Engine.references.
  destruct (js_field arrival "exitMarkerId"); try (split; [discriminate | discriminate]).
  rewrite String.eqb_eq. split; [now intros -> | now intros [= ->]].
Qed.

Lemma references_false exit arrival :
  js_field arrival "exitMarkerId" <> VStr (id exit) ->
  Engine.references exit arrival = false.
Proof.
  intros H. destruct (Engine.references exit arrival) eqn:E; [| reflexivity].
  apply references_true in E. contradiction.
Qed.

Lemma continuity_valid exit arrival :
  valid (continuity (Engine.verifyTransfer verifyExit verifyArrival exit arrival)) = true <->
  Engine.references exit arrival = true /\ Engine.ordered exit arrival = true.
Proof.
  unfold Engine.verifyTransfer. simpl.
  destruct (Engine.references exit arrival), (Engine.ordered exit arrival); simpl;
    intuition congruence.
Qed.

Lemma transfer_verified exit arrival :
  verified (Engine.verifyTransfer verifyExit verifyArrival exit arrival) = true <->
  verifyExit exit = true /\ verifyArrival arrival = true /\
  Engine.references exit arrival = true /\ Engine.ordered exit arrival = true.
Proof.
  unfold Engine.verifyTransfer. simpl.
  destruct (verifyExit exit), (verifyArrival arrival),
    (Engine.references exit arrival), (Engine.ordered exit arrival); simpl;
    intuition congruence.
Qed.
End VerifyTransferFacts.

Section VerifyTransferShape.
Variable verifyExit : ExitMarker -> bool.
Variable verifyArrival : JsValue -> bool.

Lemma ordered_true exit arrival :
  Engine.ordered exit arrival = true <->
  exists t, js_field arrival "timestamp" = VNum t /\ timestamp exit <= t.
Proof.
  unfold Engine.ordered. destruct (js_field arrival "timestamp");
    try (split; [discriminate | intros (t & H & _); discriminate]).
  rewrite Z.leb_le. split; [eauto | now intros (t & [= <-] & H)].
Qed.

Lemma signature_errors exit arrival :
  errors (Engine.verifyTransfer verifyExit verifyArrival exit arrival) =
  (if verifyExit exit then [] else ["exit marker signature invalid"])
  ++ (if verifyArrival arrival then [] else ["arrival marker signature invalid"]).
Proof.
  unfold Engine.verifyTransfer. simpl.
  destruct (verifyExit exit), (verifyArrival arrival); reflexivity.
Qed.

Lemma continuity_errors_listed exit arrival :
  continuity_errors (continuity (Engine.verifyTransfer verifyExit verifyArrival exit arrival)) =
  (if Engine.references exit arrival then [] else ["arrival does not reference this exit"])
  ++ (if Engine.ordered exit arrival then [] else ["arrival precedes departure"]).
Proof.
  unfold Engine.verifyTransfer. simpl.
  destruct (Engine.references exit arrival), (Engine.ordered exit arrival); reflexivity.
Qed.
End VerifyTransferShape.

(** C8. For every exit marker and arrival, whatever the two signature checks
    answer: [continuity.valid] holds exactly when the arrival's [exitMarkerId]
    is the exit marker's [id] and the arrival's timestamp is not before the
    exit's; [verified] holds exactly when both signature checks pass and the
    continuity is valid; [errors] lists the failed signature checks and
    [continuity.errors] the failed continuity checks. So when [exitMarkerId]
    is not the exit marker's [id], [continuity.valid] is false with the
    reference-mismatch error and the record is not verified, also when both
    signatures verify and [errors] is empty. *)
Theorem mismatched_reference_breaks_continuity :
  forall (verifyExit : ExitMarker -> bool) (verifyArrival : JsValue -> bool)
         (exit : ExitMarker) (arrival : JsValue),
    let record := Engine.verifyTransfer verifyExit verifyArrival exit arrival in
    (valid (continuity record) = true <->
     js_field arrival "exitMarkerId" = VStr (id exit) /\
     exists t, js_field arrival "timestamp" = VNum t /\ timestamp exit <= t) /\
    (verified record = true <->
     verifyExit exit = true /\ verifyArrival arrival = true /\
     valid (continuity record) = true) /\
    errors record =
    (if verifyExit exit then [] else ["exit marker signature invalid"])
    ++ (if verifyArrival arrival then [] else ["arrival marker signature invalid"]) /\
    continuity_errors (continuity record) =
    (if Engine.references exit arrival then [] else ["arrival does not reference this exit"])
    ++ (if Engine.ordered exit arrival then [] else ["arrival precedes departure"]) /\
    (js_field arrival "exitMarkerId" <> VStr (id exit) ->
     valid (continuity record) = false /\
     In "arrival does not reference this exit" (continuity_errors (continuity record)) /\
     verified record = false /\
     (verifyExit exit = true -> verifyArrival arrival = true -> errors record = [])).
Proof.
  intros verifyExit verifyArrival exit arrival record.
  pose proof (continuity_valid verifyExit verifyArrival exit arrival) as Hvalid.
  pose proof (transfer_verified verifyExit verifyArrival exit arrival) as Hverified.
  pose proof (signature_errors verifyExit verifyArrival exit arrival) as Herrors.
  pose proof (continuity_errors_listed verifyExit verifyArrival exit arrival) as Hcerrors.
  fold record in Hvalid, Hverified, Herrors, Hcerrors.
  rewrite references_true, ordered_true in Hvalid.
  rewrite references_true, ordered_true in Hverified.
  split; [exact Hvalid |].
  split; [rewrite Hvalid, Hverified; tauto |].
  split; [exact Herrors |].
  split; [exact Hcerrors |].
  intros Hne. pose proof (references_false exit arrival Hne) as Href.
  assert (Hv : valid (continuity record) = false).
  { destruct (valid (continuity record)); [| reflexivity].
    destruct (proj1 Hvalid eq_refl) as [H _]. contradiction. }
  split; [exact Hv |].
  split; [rewrite Hcerrors, Href; simpl; auto |].
  split.
  - destruct (verified record); [| reflexivity].
    destruct (proj1 Hverified eq_refl) as (_ & _ & H & _). contradiction.
  - intros He Ha. rewrite Herrors, He, Ha. reflexivity.
Qed.

Lemma mismatched_reference_breaks_continuity_witness :
  valid (continuity Reference.stray_record) = false /\
  In "arrival does not reference this exit"
     (continuity_errors (continuity Reference.stray_record)) /\
  verified Reference.stray_record = false /\
  errors Reference.stray_record = [].
Proof.
  pose proof (proj2 (proj2 (proj2 (proj2
                (mismatched_reference_breaks_continuity Reference.verify
                   Reference.verifyArrival Reference.departure Reference.stray_arrival))))
                ltac:(vm_compute; discriminate)) as (H1 & H2 & H3 & H4).
  exact (conj H1 (conj H2 (conj H3 (H4 eq_refl eq_refl)))).
Defined.

(** ** Key material in responses *)

Lemma bytes_of_strings (l : list string) : flat_map js_bytes (map VStr l) = [].
Proof. induction l; simpl; auto. Qed.

Lemma key_free_strings (l : list string) : key_free (strings_value l).
Proof. apply bytes_of_strings. Qed.

Lemma key_free_assoc_get fields k :
  flat_map (fun kv => js_bytes (snd kv)) fields = [] -> key_free (assoc_get fields k).
Proof.
  induction fields as [| [k' v] rest IH]; simpl; intros H; [reflexivity |].
  apply app_eq_nil in H as [Hv Hrest].
  destruct (String.eqb k' k); [exact Hv | now apply IH].
Qed.

Lemma key_free_field v k : key_free v -> key_free (js_field v k).
Proof.
  destruct v; simpl; intros H; try reflexivity. now apply key_free_assoc_get.
Qed.

Lemma key_free_valid_of v : key_free v -> key_free (valid_of v).
Proof.
  unfold valid_of. intros H. destruct (is_object v); [now apply key_free_field | exact H].
Qed.

Lemma key_free_continuity c : key_free (continuity_value c).
Proof.
  unfold key_free, continuity_value. simpl. now rewrite bytes_of_strings.
Qed.

Lemma key_free_policy P : key_free (VObj (policy_fields P)).
Proof.
  unfold key_free, policy_fields. simpl.
  rewrite bytes_of_strings, flat_map_app. simpl. rewrite bytes_of_strings.
  destruct (maxAgeSeconds P); reflexivity.
Qed.

Lemma key_free_message err : key_free (message_value err).
Proof. unfold message_value. destruct (message err); reflexivity. Qed.

Ltac plain :=
  unfold key_free in *; simpl;
  rewrite ?bytes_of_strings, ?key_free_message; simpl;
  repeat match goal with
         | H : js_bytes _ = [] |- _ => rewrite H; clear H; simpl
         end;
  try reflexivity.

Section KeyMaterial.
Context {World : Type}.
Variable lib : Collaborators World.
Variable options : CreateServerOptions.
Hypothesis plain_data : PlainData lib.

Lemma generate_identity_plain s :
  match fst (generate_identity lib s) with
  | Ok resp => key_free (content resp)
  | Throw _ => True
  end.
Proof.
  unfold generate_identity. run.
  destruct (generateIdentity lib (world s)) as [[identity | err] w]; simpl; [plain | exact I].
Qed.

Lemma quick_exit_plain origin exitType reason s :
  match fst (quick_exit lib origin exitType reason s) with
  | Ok resp => key_free (content resp)
  | Throw _ => True
  end.
Proof.
  unfold quick_exit. run.
  destruct (quickExit lib origin exitType reason (world s)) as [[[m identity] | err] w] eqn:E1;
    simpl; [| exact I].
  destruct (verifyMarker lib m w) as [[v | err] w2] eqn:E2; simpl; [| exact I].
  destruct (toJSON lib m) as [text | err]; simpl; [| exact I].
  destruct (JSON_parse lib text) as [value | err] eqn:E3; simpl; [| exact I].
  pose proof (parse_plain lib plain_data _ _ E3) as Hvalue.
  pose proof (key_free_valid_of _ (verify_plain lib plain_data _ _ _ _ E2)) as Hvalid.
  plain.
Qed.

Lemma create_exit_marker_plain origin exitType reason s :
  match fst (create_exit_marker lib origin exitType reason s) with
  | Ok resp => key_free (content resp)
  | Throw _ => True
  end.
Proof.
  assert (tail : forall identity s0,
             match fst ((let* marker := call (CallCreateMarker origin origin
                                match exitType with Some t => t | None => Voluntary end)
                               (createMarker lib origin origin
                                match exitType with Some t => t | None => Voluntary end) in
                         let* signed := call (CallSignMarker marker (privateKey identity)
                                                             (publicKey identity))
                               (signMarker lib marker (privateKey identity)
                                           (publicKey identity)) in
                         let* text := call_pure (CallToJSON signed) (toJSON lib signed) in
                         let* value := call_pure (CallJSONParse text) (JSON_parse lib text) in
                         ret {| content := VObj [("marker", value);
                                                 ("signerDid", VStr (did identity))];
                                isError := false |}) s0) with
             | Ok resp => key_free (content resp)
             | Throw _ => True
             end).
  { intros identity s0. run.
    destruct (createMarker lib origin origin _ (world s0)) as [[marker | err] w]; simpl;
      [| exact I].
    destruct (signMarker lib marker _ _ w) as [[signed | err] w']; simpl; [| exact I].
    destruct (toJSON lib signed) as [text | err]; simpl; [| exact I].
    destruct (JSON_parse lib text) as [value | err] eqn:E; simpl; [| exact I].
    pose proof (parse_plain lib plain_data _ _ E) as Hvalue. plain. }
  unfold create_exit_marker, ensure_sessionIdentity.
  unfold bind at 1. unfold bind at 1. unfold get_sessionIdentity.
  destruct (sessionIdentity s) as [identity |]; simpl.
  - apply tail.
  - unfold bind at 1. unfold call at 1.
    destruct (generateIdentity lib (world s)) as [[identity | err] w]; simpl; [| exact I].
    apply tail.
Qed.

Lemma verify_exit_marker_plain markerJson s :
  match fst (verify_exit_marker lib markerJson s) with
  | Ok resp => key_free (content resp)
  | Throw _ => True
  end.
Proof.
  unfold verify_exit_marker. run.
  destruct (fromJSON lib markerJson) as [m | err]; simpl; [| plain].
  destruct (verifyMarker lib m (world s)) as [[v | err] w] eqn:E; simpl; [| plain].
  pose proof (key_free_valid_of _ (verify_plain lib plain_data _ _ _ _ E)) as Hvalid.
  plain.
Qed.

Lemma verify_and_admit_plain exitMarkerJson destination admissionPolicy s :
  match fst (verify_and_admit lib options exitMarkerJson destination admissionPolicy s) with
  | Ok resp => key_free (content resp)
  | Throw _ => True
  end.
Proof.
  unfold verify_and_admit. run.
  destruct (fromJSON lib exitMarkerJson) as [m | err]; simpl; [| plain].
  destruct (evaluateAdmission lib m _ (world s)) as [[admission | err] w]; simpl; [| plain].
  destruct (admitted admission); simpl; [| plain].
  destruct (quickEntry lib exitMarkerJson destination w) as [[result | err] w'] eqn:E; simpl;
    [| plain].
  pose proof (entry_plain lib plain_data _ _ _ _ _ E) as Harrival. plain.
Qed.

Lemma evaluate_admission_plain exitMarkerJson policy s :
  match fst (evaluate_admission lib options exitMarkerJson policy s) with
  | Ok resp => key_free (content resp)
  | Throw _ => True
  end.
Proof.
  unfold evaluate_admission. run.
  destruct (fromJSON lib exitMarkerJson) as [m | err]; simpl; [| plain].
  destruct (evaluateAdmission lib m _ (world s)) as [[result | err] w]; simpl; plain.
Qed.

Lemma verify_transfer_plain exitMarkerJson arrivalMarkerJson s :
  match fst (verify_transfer lib exitMarkerJson arrivalMarkerJson s) with
  | Ok resp => key_free (content resp)
  | Throw _ => True
  end.
Proof.
  unfold verify_transfer. run.
  destruct (fromJSON lib exitMarkerJson) as [m | err]; simpl; [| plain].
  destruct (JSON_parse lib arrivalMarkerJson) as [arrival | err]; simpl; [| plain].
  destruct (verifyTransfer lib m arrival (world s)) as [[record | err] w]; simpl; plain.
Qed.

Lemma list_admission_policies_plain s :
  match fst (list_admission_policies lib s) with
  | Ok resp => key_free (content resp)
  | Throw _ => True
  end.
Proof.
  unfold list_admission_policies. run.
  pose proof (key_free_policy (OPEN_DOOR lib)) as H1.
  pose proof (key_free_policy (STRICT lib)) as H2.
  pose proof (key_free_policy (EMERGENCY_ONLY lib)) as H3.
  unfold key_free in *. simpl in *. now rewrite H1, H2, H3.
Qed.
End KeyMaterial.

Section IdentityPayloads.
Context {World : Type}.
Variable lib : Collaborators World.

(** What the three tools that touch the session identity return of it: its DID. *)
Lemma identity_payloads origin exitType reason s resp :
  (fst (generate_identity lib s) = Ok resp ->
   js_keys (content resp) = ["did"; "message"] /\
   exists identity,
     sessionIdentity (snd (generate_identity lib s)) = Some identity /\
     js_field (content resp) "did" = VStr (did identity)) /\
  (fst (quick_exit lib origin exitType reason s) = Ok resp ->
   js_keys (content resp) = ["marker"; "signerDid"; "verified"] /\
   exists identity,
     sessionIdentity (snd (quick_exit lib origin exitType reason s)) = Some identity /\
     js_field (content resp) "signerDid" = VStr (did identity)) /\
  (fst (create_exit_marker lib origin exitType reason s) = Ok resp ->
   js_keys (content resp) = ["marker"; "signerDid"] /\
   exists identity,
     sessionIdentity (snd (create_exit_marker lib origin exitType reason s)) = Some identity /\
     js_field (content resp) "signerDid" = VStr (did identity)).
Proof.
  split; [| split].
  - unfold generate_identity. run.
    destruct (generateIdentity lib (world s)) as [[identity | err] w]; simpl;
      [| discriminate].
    intros [= <-]. simpl. eauto.
  - unfold quick_exit. run.
    destruct (quickExit lib origin exitType reason (world s)) as [[[m identity] | err] w];
      simpl; [| discriminate].
    destruct (verifyMarker lib m w) as [[v | err] w2]; simpl; [| discriminate].
    destruct (toJSON lib m) as [text | err]; simpl; [| discriminate].
    destruct (JSON_parse lib text) as [value | err]; simpl; [| discriminate].
    intros [= <-]. simpl. eauto.
  - unfold create_exit_marker, ensure_sessionIdentity. run.
    destruct (sessionIdentity s) as [identity |] eqn:Hid; simpl.
    + destruct (createMarker lib origin origin _ (world s)) as [[marker | err] w]; simpl;
        [| discriminate].
      destruct (signMarker lib marker _ _ w) as [[signed | err] w']; simpl; [| discriminate].
      destruct (toJSON lib signed) as [text | err]; simpl; [| discriminate].
      destruct (JSON_parse lib text) as [value | err]; simpl; [| discriminate].
      intros [= <-]. simpl. eauto.
    + destruct (generateIdentity lib (world s)) as [[identity | err] w0]; simpl;
        [| discriminate].
      destruct (createMarker lib origin origin _ w0) as [[marker | err] w]; simpl;
        [| discriminate].
      destruct (signMarker lib marker _ _ w) as [[signed | err] w']; simpl; [| discriminate].
      destruct (toJSON lib signed) as [text | err]; simpl; [| discriminate].
      destruct (JSON_parse lib text) as [value | err]; simpl; [| discriminate].
      intros [= <-]. simpl. eauto.
Qed.
End IdentityPayloads.

Section Frame.
Context {World : Type}.
Variable lib : Collaborators World.
Variable options : CreateServerOptions.

(** The handlers that do not touch the identity: it is neither written nor read. *)
Lemma entry_tools_frame req s i :
  touches_identity req = false ->
  sessionIdentity (snd (handle lib options req s)) = sessionIdentity s /\
  fst (handle lib options req (with_identity i s)) = fst (handle lib options req s) /\
  world (snd (handle lib options req (with_identity i s)))
  = world (snd (handle lib options req s)) /\
  trace (snd (handle lib options req (with_identity i s)))
  = trace (snd (handle lib options req s)).
Proof.
  destruct req; try discriminate; intros _; simpl.
  - unfold verify_exit_marker. run.
    destruct (fromJSON lib markerJson) as [m | err]; simpl; [| auto].
    destruct (verifyMarker lib m (world s)) as [[v | err] w]; simpl; auto.
  - unfold verify_and_admit. run.
    destruct (fromJSON lib exitMarkerJson) as [m | err]; simpl; [| auto].
    destruct (evaluateAdmission lib m _ (world s)) as [[admission | err] w]; simpl; [| auto].
    destruct (admitted admission); simpl; [| auto].
    destruct (quickEntry lib exitMarkerJson destination w) as [[result | err] w']; simpl; auto.
  - unfold evaluate_admission. run.
    destruct (fromJSON lib exitMarkerJson) as [m | err]; simpl; [| auto].
    destruct (evaluateAdmission lib m _ (world s)) as [[result | err] w]; simpl; auto.
  - unfold verify_transfer. run.
    destruct (fromJSON lib exitMarkerJson) as [m | err]; simpl; [| auto].
    destruct (JSON_parse lib arrivalMarkerJson) as [arrival | err]; simpl; [| auto].
    destruct (verifyTransfer lib m arrival (world s)) as [[record | err] w]; simpl; auto.
  - unfold list_admission_policies. run. auto.
Qed.

(** Whatever the request, an identity that is held is not lost. *)
Lemma handle_keeps_identity req s :
  is_Some (sessionIdentity s) -> is_Some (sessionIdentity (snd (handle lib options req s))).
Proof.
  intros Hs. destruct (touches_identity req) eqn:E.
  2:{ now rewrite (proj1 (entry_tools_frame req s None E)). }
  destruct req as [| o e r | o e r | | | | |]; try discriminate; simpl.
  - unfold generate_identity. run.
    destruct (generateIdentity lib (world s)) as [[identity | err] w]; simpl; eauto.
  - unfold quick_exit. run.
    destruct (quickExit lib o e r (world s)) as [[[m identity] | err] w];
      simpl; [| exact Hs].
    destruct (verifyMarker lib m w) as [[v | err] w2]; simpl; [| eauto].
    destruct (toJSON lib m) as [text | err]; simpl; [| eauto].
    destruct (JSON_parse lib text) as [value | err]; simpl; eauto.
  - destruct Hs as [identity Hid].
    rewrite (proj1 (create_exit_marker_reuses_identity lib o e r s identity Hid)).
    eauto.
Qed.
End Frame.

Section IdentityFlow.
Context {World : Type}.
Variable lib : Collaborators World.
Variable options : CreateServerOptions.

(** The whole payload of [generate_identity]: the DID and a fixed text. *)
Lemma generate_identity_payload s resp :
  fst (generate_identity lib s) = Ok resp ->
  exists identity w,
    generateIdentity lib (world s) = (Ok identity, w) /\
    resp = {| content := VObj [("did", VStr (did identity));
                               ("message", VStr generate_identity_message)];
              isError := false |}.
Proof.
  unfold generate_identity. run.
  destruct (generateIdentity lib (world s)) as [[identity | err] w]; simpl; [| discriminate].
  intros [= <-]. eauto.
Qed.

(** The whole payload of [quick_exit]: what the codec and [JSON.parse] make of the
    marker, the DID, and the reading of the verification. *)
Lemma quick_exit_payload origin exitType reason s resp :
  fst (quick_exit lib origin exitType reason s) = Ok resp ->
  exists m identity w v w' text value,
    quickExit lib origin exitType reason (world s) = (Ok (m, identity), w) /\
    verifyMarker lib m w = (Ok v, w') /\
    toJSON lib m = Ok text /\
    JSON_parse lib text = Ok value /\
    resp = {| content := VObj [("marker", value);
                               ("signerDid", VStr (did identity));
                               ("verified", valid_of v)];
              isError := false |}.
Proof.
  unfold quick_exit. run.
  destruct (quickExit lib origin exitType reason (world s)) as [[[m identity] | err] w];
    simpl; [| discriminate].
  destruct (verifyMarker lib m w) as [[v | err] w'] eqn:Hv; simpl; [| discriminate].
  destruct (toJSON lib m) as [text | err] eqn:Ht; simpl; [| discriminate].
  destruct (JSON_parse lib text) as [value | err] eqn:Hp; simpl; [| discriminate].
  intros [= <-]. exists m, identity, w, v, w', text, value. auto 10.
Qed.

(** The whole payload of [create_exit_marker]: what the codec and [JSON.parse]
    make of the marker that [signMarker] returned for the key pair of the
    identity held or generated, and the DID of that identity. *)
Lemma create_exit_marker_payload origin exitType reason s resp :
  fst (create_exit_marker lib origin exitType reason s) = Ok resp ->
  exists identity w0 marker w1 signed w2 text value,
    (sessionIdentity s = Some identity /\ w0 = world s \/
     sessionIdentity s = None /\ generateIdentity lib (world s) = (Ok identity, w0)) /\
    createMarker lib origin origin
      match exitType with Some t => t | None => Voluntary end w0 = (Ok marker, w1) /\
    signMarker lib marker (privateKey identity) (publicKey identity) w1 = (Ok signed, w2) /\
    toJSON lib signed = Ok text /\
    JSON_parse lib text = Ok value /\
    resp = {| content := VObj [("marker", value); ("signerDid", VStr (did identity))];
              isError := false |}.
Proof.
  unfold create_exit_marker, ensure_sessionIdentity. run.
  destruct (sessionIdentity s) as [identity |] eqn:Hid; simpl.
  - destruct (createMarker lib origin origin _ (world s)) as [[marker | err] w1] eqn:Hc;
      simpl; [| discriminate].
    destruct (signMarker lib marker _ _ w1) as [[signed | err] w2] eqn:Hs; simpl;
      [| discriminate].
    destruct (toJSON lib signed) as [text | err] eqn:Ht; simpl; [| discriminate].
    destruct (JSON_parse lib text) as [value | err] eqn:Hp; simpl; [| discriminate].
    intros [= <-]. exists identity, (world s), marker, w1, signed, w2, text, value. auto 10.
  - destruct (generateIdentity lib (world s)) as [[identity | err] w0] eqn:Hg; simpl;
      [| discriminate].
    destruct (createMarker lib origin origin _ w0) as [[marker | err] w1] eqn:Hc;
      simpl; [| discriminate].
    destruct (signMarker lib marker _ _ w1) as [[signed | err] w2] eqn:Hs; simpl;
      [| discriminate].
    destruct (toJSON lib signed) as [text | err] eqn:Ht; simpl; [| discriminate].
    destruct (JSON_parse lib text) as [value | err] eqn:Hp; simpl; [| discriminate].
    intros [= <-]. exists identity, w0, marker, w1, signed, w2, text, value. auto 10.
Qed.

(** The private key a session holds reaches a response through [signMarker]
    only: with a signer that returns the same for another key, every tool
    answers the same when the session holds that other key. *)
Lemma private_key_flows_to_signer req s identity k :
  sessionIdentity s = Some identity ->
  (forall m w, signMarker lib m k (publicKey identity) w
               = signMarker lib m (privateKey identity) (publicKey identity) w) ->
  fst (handle lib options req (with_identity (Some (with_privateKey k identity)) s))
  = fst (handle lib options req s).
Proof.
  intros Hid Hsign.
  destruct req as [| o e r | o e r | | | | |].
  - simpl. unfold generate_identity. run.
    destruct (generateIdentity lib (world s)) as [[i | err] w]; reflexivity.
  - simpl. destruct s as [i0 w t]. apply quick_exit_response_independent.
  - simpl. unfold create_exit_marker, ensure_sessionIdentity. run. rewrite Hid. simpl.
    destruct (createMarker lib o o _ (world s)) as [[marker | err] w1]; simpl;
      [| reflexivity].
    rewrite Hsign.
    destruct (signMarker lib marker _ _ w1) as [[signed | err] w2]; simpl; [| reflexivity].
    destruct (toJSON lib signed) as [text | err]; simpl; [| reflexivity].
    destruct (JSON_parse lib text) as [value | err]; reflexivity.
  - now apply entry_tools_frame.
  - now apply entry_tools_frame.
  - now apply entry_tools_frame.
  - now apply entry_tools_frame.
  - now apply entry_tools_frame.
Qed.
End IdentityFlow.

(** C9. No response holds private key material. The payload of
    [generate_identity] is the DID of the generated identity and one fixed
    text; that of [quick_exit] is the parsed text of the marker, the DID and the
    reading of the verification; that of [create_exit_marker] is the parsed
    text of the signed marker and the DID: nothing else of the identity is in
    them, and the private key is handed to [signMarker] and to nothing else.
    The other five tools answer the same whatever identity the session holds.
    The private key held reaches a response through [signMarker] only: with a
    signer that returns the same for another key, every tool answers the same
    when the session holds that other key. And no byte array, the form keys
    have, occurs in any payload, given that the data the collaborators return
    for it is plain. *)
Theorem responses_hold_no_key_material :
  forall (World : Type) (lib : Collaborators World) (options : CreateServerOptions),
    (forall s resp,
        fst (generate_identity lib s) = Ok resp ->
        exists identity w,
          generateIdentity lib (world s) = (Ok identity, w) /\
          resp = {| content := VObj [("did", VStr (did identity));
                                     ("message", VStr generate_identity_message)];
                    isError := false |}) /\
    (forall origin exitType reason s resp,
        fst (quick_exit lib origin exitType reason s) = Ok resp ->
        exists m identity w v w' text value,
          quickExit lib origin exitType reason (world s) = (Ok (m, identity), w) /\
          verifyMarker lib m w = (Ok v, w') /\
          toJSON lib m = Ok text /\
          JSON_parse lib text = Ok value /\
          resp = {| content := VObj [("marker", value);
                                     ("signerDid", VStr (did identity));
                                     ("verified", valid_of v)];
                    isError := false |}) /\
    (forall origin exitType reason s resp,
        fst (create_exit_marker lib origin exitType reason s) = Ok resp ->
        exists identity w0 marker w1 signed w2 text value,
          (sessionIdentity s = Some identity /\ w0 = world s \/
           sessionIdentity s = None /\ generateIdentity lib (world s) = (Ok identity, w0)) /\
          createMarker lib origin origin
            match exitType with Some t => t | None => Voluntary end w0 = (Ok marker, w1) /\
          signMarker lib marker (privateKey identity) (publicKey identity) w1
          = (Ok signed, w2) /\
          toJSON lib signed = Ok text /\
          JSON_parse lib text = Ok value /\
          resp = {| content := VObj [("marker", value); ("signerDid", VStr (did identity))];
                    isError := false |}) /\
    (forall req s i,
        touches_identity req = false ->
        fst (handle lib options req (with_identity i s)) = fst (handle lib options req s)) /\
    (forall req s identity k,
        sessionIdentity s = Some identity ->
        (forall m w, signMarker lib m k (publicKey identity) w
                     = signMarker lib m (privateKey identity) (publicKey identity) w) ->
        fst (handle lib options req (with_identity (Some (with_privateKey k identity)) s))
        = fst (handle lib options req s)) /\
    (PlainData lib ->
     forall req s,
       match fst (handle lib options req s) with
       | Ok resp => key_free (content resp)
       | Throw _ => True
       end).
Proof.
  intros World lib options.
  split; [exact (generate_identity_payload lib) |].
  split; [exact (quick_exit_payload lib) |].
  split; [exact (create_exit_marker_payload lib) |].
  split.
  { intros req s i Hreq. exact (proj1 (proj2 (entry_tools_frame lib options req s i Hreq))). }
  split; [exact (private_key_flows_to_signer lib options) |].
  intros Hplain req s. destruct req; simpl.
  - now apply generate_identity_plain.
  - now apply quick_exit_plain.
  - now apply create_exit_marker_plain.
  - now apply verify_exit_marker_plain.
  - now apply verify_and_admit_plain.
  - now apply evaluate_admission_plain.
  - now apply verify_transfer_plain.
  - now apply list_admission_policies_plain.
Qed.

Lemma reference_plain : PlainData Reference.reference.
Proof.
  split.
  - intros text v. simpl. unfold Reference.parse.
    destruct (find _ Reference.known) as [m |].
    + intros [= <-]. unfold key_free, Reference.marker_value. simpl.
      destruct (signature m); reflexivity.
    + destruct (Reference.texts !! text) as [v' |] eqn:E; [| discriminate].
      intros [= <-]. unfold Reference.texts in E.
      apply lookup_insert_Some in E as [[_ <-] | [_ E]]; [reflexivity |].
      apply lookup_singleton_Some in E as [_ <-]. reflexivity.
  - intros m w v w'. simpl. intros [= <- _]. reflexivity.
  - intros text destination w r w'. simpl.
    destruct (Reference.decode Reference.known text) as [m | err]; [| discriminate].
    intros [= <- _]. reflexivity.
Qed.

Lemma responses_hold_no_key_material_witness :
  match fst (session Reference.reference {| serverPolicy := None |}
               [GenerateIdentity; CreateExitMarker "did:example:a" None None]
               (Reference.start 5)) with
  | [_; Ok resp] => key_free (content resp)
  | _ => False
  end.
Proof.
  exact (proj2 (proj2 (proj2 (proj2 (proj2
           (responses_hold_no_key_material Reference.World Reference.reference
              {| serverPolicy := None |})))))
           reference_plain
           (CreateExitMarker "did:example:a" None None)
           (snd (handle Reference.reference {| serverPolicy := None |} GenerateIdentity
                   (Reference.start 5)))).
Defined.

(** ** The arrival marker of [verify_transfer] *)

(** C10. In [verify_transfer] the codec decodes the exit marker only. Whatever
    value [JSON.parse] gives for the arrival text is handed as it is to
    [verifyTransfer], whose record (or exception) makes the response: the calls
    are one [fromJSON], on the exit text, one [JSON.parse] and one
    [verifyTransfer]. *)
Theorem arrival_marker_is_not_decoded :
  forall (World : Type) (lib : Collaborators World)
         (exitMarkerJson arrivalMarkerJson : string) (s : ServerState World)
         (exitMarker : ExitMarker) (arrival : JsValue),
    fromJSON lib exitMarkerJson = Ok exitMarker ->
    JSON_parse lib arrivalMarkerJson = Ok arrival ->
    verify_transfer lib exitMarkerJson arrivalMarkerJson s =
    (Ok match fst (verifyTransfer lib exitMarker arrival (world s)) with
        | Ok record =>
            {| content := VObj [("verified", VBool (verified record));
                                ("transferTime", VNum (transferTime record));
                                ("errors", strings_value (errors record));
                                ("continuity", continuity_value (continuity record))];
               isError := false |}
        | Throw err =>
            {| content := VObj [("verified", VBool false); ("error", message_value err)];
               isError := true |}
        end,
     {| sessionIdentity := sessionIdentity s;
        world := snd (verifyTransfer lib exitMarker arrival (world s));
        trace := trace s ++ [CallFromJSON exitMarkerJson; CallJSONParse arrivalMarkerJson;
                             CallVerifyTransfer exitMarker arrival] |}).
Proof.
  intros World lib exitJson arrivalJson s m arrival Hm Ha.
  unfold verify_transfer. run. rewrite Hm. simpl. rewrite Ha. simpl.
  destruct (verifyTransfer lib m arrival (world s)) as [[record | err] w]; simpl;
    now rewrite trace_three.
Qed.

Lemma arrival_marker_is_not_decoded_witness :
  verify_transfer Reference.reference "exit:1000:alice" "{}" (Reference.start 5) =
  (Ok {| content :=
           VObj [("verified", VBool false); ("transferTime", VNum 0);
                 ("errors", VArr [VStr "arrival marker signature invalid"]);
                 ("continuity",
                  VObj [("valid", VBool false);
                        ("errors", VArr [VStr "arrival does not reference this exit";
                                         VStr "arrival precedes departure"])])];
         isError := false |},
   {| sessionIdentity := None;
      world := {| Reference.clock := 5; Reference.minted := 0 |};
      trace := [CallFromJSON "exit:1000:alice"; CallJSONParse "{}";
                CallVerifyTransfer Reference.departure (VObj [])] |}).
Proof.
  exact (arrival_marker_is_not_decoded Reference.World Reference.reference
           "exit:1000:alice" "{}" (Reference.start 5) Reference.departure (VObj [])
           eq_refl eq_refl).
Defined.

(** * Further properties of the tools *)

(** ** Exceptions and error responses *)

Lemma message_or_nonempty err fallback :
  fallback <> "" -> message_or err fallback <> "".
Proof.
  unfold message_or. intros H. destruct (message err) as [s |]; [| exact H].
  destruct (String.eqb s "") eqn:E; [exact H |]. now apply String.eqb_neq.
Qed.

(** X2. An error response never carries a positive verdict: when [isError] is
    set, [valid], [admitted] or [verified] is [false] in the payload, and the
    payload has exactly the verdict and the [error] property. *)
Theorem error_responses_fail_closed :
  forall (World : Type) (lib : Collaborators World) (options : CreateServerOptions)
         (s : ServerState World) (resp : Response),
    isError resp = true ->
    (forall markerJson,
        fst (verify_exit_marker lib markerJson s) = Ok resp ->
        js_field (content resp) "valid" = VBool false /\
        js_keys (content resp) = ["valid"; "error"]) /\
    (forall exitMarkerJson destination admissionPolicy,
        fst (verify_and_admit lib options exitMarkerJson destination admissionPolicy s)
        = Ok resp ->
        js_field (content resp) "admitted" = VBool false /\
        js_keys (content resp) = ["admitted"; "error"]) /\
    (forall exitMarkerJson policy,
        fst (evaluate_admission lib options exitMarkerJson policy s) = Ok resp ->
        js_field (content resp) "admitted" = VBool false /\
        js_keys (content resp) = ["admitted"; "error"]) /\
    (forall exitMarkerJson arrivalMarkerJson,
        fst (verify_transfer lib exitMarkerJson arrivalMarkerJson s) = Ok resp ->
        js_field (content resp) "verified" = VBool false /\
        js_keys (content resp) = ["verified"; "error"]).
Proof.
  intros World lib options s resp Herr. repeat split; revert H.
  all: try (unfold verify_exit_marker; run;
            destruct (fromJSON lib markerJson) as [m | err]; simpl;
            [destruct (verifyMarker lib m (world s)) as [[v | err] w]; simpl |];
            intros [= <-]; simpl in *; congruence).
  all: try (unfold verify_and_admit; run;
            destruct (fromJSON lib exitMarkerJson) as [m | err]; simpl;
            [destruct (evaluateAdmission lib m _ (world s)) as [[admission | err] w]; simpl;
             [destruct (admitted admission); simpl;
              [destruct (quickEntry lib exitMarkerJson destination w)
                 as [[result | err] w']; simpl |] |] |];
            intros [= <-]; simpl in *; congruence).
  all: try (unfold evaluate_admission; run;
            destruct (fromJSON lib exitMarkerJson) as [m | err]; simpl;
            [destruct (evaluateAdmission lib m _ (world s)) as [[result | err] w]; simpl |];
            intros [= <-]; simpl in *; congruence).
  all: unfold verify_transfer; run;
    destruct (fromJSON lib exitMarkerJson) as [m | err]; simpl;
    [destruct (JSON_parse lib arrivalMarkerJson) as [arrival | err]; simpl;
     [destruct (verifyTransfer lib m arrival (world s)) as [[record | err] w]; simpl |] |];
    intros [= <-]; simpl in *; congruence.
Qed.

Lemma error_responses_fail_closed_witness :
  js_field (VObj [("valid", VBool false); ("error", VStr "Invalid marker JSON")]) "valid"
  = VBool false /\
  js_keys (VObj [("valid", VBool false); ("error", VStr "Invalid marker JSON")])
  = ["valid"; "error"].
Proof.
  exact (proj1 (error_responses_fail_closed Reference.World Reference.reference
                  {| serverPolicy := None |} (Reference.start 5)
                  {| content := VObj [("valid", VBool false);
                                      ("error", VStr "Invalid marker JSON")];
                     isError := true |} eq_refl)
               "{garbage" eq_refl).
Defined.

(** ** Positive verdicts *)

(** X3. [verify_and_admit] answers [admitted: true] only when the marker was
    decoded, the evaluation against the resolved preset admitted it, and
    [quickEntry] then returned: the arrival marker of the response is the one
    [quickEntry] made, and the response is no error. *)
Theorem admitted_only_after_evaluation :
  forall (World : Type) (lib : Collaborators World) (options : CreateServerOptions)
         (exitMarkerJson destination : string) (admissionPolicy : option string)
         (s : ServerState World) (resp : Response),
    fst (verify_and_admit lib options exitMarkerJson destination admissionPolicy s) = Ok resp ->
    js_field (content resp) "admitted" = VBool true ->
    exists m admission w result w',
      fromJSON lib exitMarkerJson = Ok m /\
      evaluateAdmission lib m
        (admissionPresets lib !! verify_and_admit_policyName options admissionPolicy) (world s)
      = (Ok admission, w) /\
      admitted admission = true /\
      quickEntry lib exitMarkerJson destination w = (Ok result, w') /\
      isError resp = false /\
      js_field (content resp) "arrivalMarker" = arrivalMarker result /\
      js_field (content resp) "exitMarkerId" = VStr (id (entry_exitMarker result)).
Proof.
  intros World lib options json dest p s resp. unfold verify_and_admit. run.
  destruct (fromJSON lib json) as [m | err]; simpl;
    [| intros [= <-]; simpl; discriminate].
  destruct (evaluateAdmission lib m _ (world s)) as [[admission | err] w] eqn:Hev; simpl;
    [| intros [= <-]; simpl; discriminate].
  destruct (admitted admission) eqn:Ha; simpl;
    [| intros [= <-]; simpl; discriminate].
  destruct (quickEntry lib json dest w) as [[result | err] w'] eqn:Hq; simpl;
    [| intros [= <-]; simpl; discriminate].
  intros [= <-] _. simpl. exists m, admission, w, result, w'. auto 10.
Qed.

Lemma admitted_only_after_evaluation_witness :
  exists m admission w result w',
    fromJSON Reference.reference "exit:1000:alice" = Ok m /\
    evaluateAdmission Reference.reference m
      (admissionPresets Reference.reference
         !! verify_and_admit_policyName {| serverPolicy := None |} None)
      (world (Reference.start 1500))
    = (Ok admission, w) /\
    admitted admission = true /\
    quickEntry Reference.reference "exit:1000:alice" "did:example:dest" w = (Ok result, w') /\
    isError {| content :=
                 VObj [("admitted", VBool true);
                       ("arrivalMarker",
                        VObj [("exitMarkerId", VStr "exit:1000:alice");
                              ("destination", VStr "did:example:dest");
                              ("timestamp", VNum 1500);
                              ("signature", VStr "sig:exit:1000:alice")]);
                       ("exitMarkerId", VStr "exit:1000:alice");
                       ("continuity", VObj [("valid", VBool true); ("errors", VArr [])])];
               isError := false |} = false /\
    VObj [("exitMarkerId", VStr "exit:1000:alice");
          ("destination", VStr "did:example:dest");
          ("timestamp", VNum 1500);
          ("signature", VStr "sig:exit:1000:alice")] = arrivalMarker result /\
    VStr "exit:1000:alice" = VStr (id (entry_exitMarker result)).
Proof.
  exact (admitted_only_after_evaluation Reference.World Reference.reference
           {| serverPolicy := None |} "exit:1000:alice" "did:example:dest" None
           (Reference.start 1500)
           {| content :=
                VObj [("admitted", VBool true);
                      ("arrivalMarker",
                       VObj [("exitMarkerId", VStr "exit:1000:alice");
                             ("destination", VStr "did:example:dest");
                             ("timestamp", VNum 1500);
                             ("signature", VStr "sig:exit:1000:alice")]);
                      ("exitMarkerId", VStr "exit:1000:alice");
                      ("continuity", VObj [("valid", VBool true); ("errors", VArr [])])];
              isError := false |}
           eq_refl eq_refl).
Defined.

(** X4. [verify_transfer] answers [verified: true] only when the exit marker was
    decoded, the arrival text was parsed, and [verifyTransfer] returned a record
    that is verified; the payload then repeats the record's continuity. *)
Theorem verified_only_from_record :
  forall (World : Type) (lib : Collaborators World)
         (exitMarkerJson arrivalMarkerJson : string) (s : ServerState World)
         (resp : Response),
    fst (verify_transfer lib exitMarkerJson arrivalMarkerJson s) = Ok resp ->
    js_field (content resp) "verified" = VBool true ->
    exists m arrival record w,
      fromJSON lib exitMarkerJson = Ok m /\
      JSON_parse lib arrivalMarkerJson = Ok arrival /\
      verifyTransfer lib m arrival (world s) = (Ok record, w) /\
      verified record = true /\
      isError resp = false /\
      js_field (content resp) "continuity" = continuity_value (continuity record).
Proof.
  intros World lib e a s resp. unfold verify_transfer. run.
  destruct (fromJSON lib e) as [m | err]; simpl;
    [| intros [= <-]; simpl; discriminate].
  destruct (JSON_parse lib a) as [arrival | err]; simpl;
    [| intros [= <-]; simpl; discriminate].
  destruct (verifyTransfer lib m arrival (world s)) as [[record | err] w] eqn:Hv; simpl;
    [| intros [= <-]; simpl; discriminate].
  intros [= <-]. simpl. intros [= Hver].
  exists m, arrival, record, w. auto 10.
Qed.

Lemma verified_only_from_record_witness :
  exists m arrival record w,
    fromJSON Arrivals.reference "exit:1000:alice" = Ok m /\
    JSON_parse Arrivals.reference "{arrival}" = Ok arrival /\
    verifyTransfer Arrivals.reference m arrival (world (Reference.start 5)) = (Ok record, w) /\
    verified record = true /\
    isError {| content :=
                 VObj [("verified", VBool true); ("transferTime", VNum 1000);
                       ("errors", VArr []);
                       ("continuity", VObj [("valid", VBool true); ("errors", VArr [])])];
               isError := false |} = false /\
    VObj [("valid", VBool true); ("errors", VArr [])] = continuity_value (continuity record).
Proof.
  exact (verified_only_from_record Reference.World Arrivals.reference
           "exit:1000:alice" "{arrival}" (Reference.start 5)
           {| content :=
                VObj [("verified", VBool true); ("transferTime", VNum 1000);
                      ("errors", VArr []);
                      ("continuity", VObj [("valid", VBool true); ("errors", VArr [])])];
              isError := false |}
           eq_refl eq_refl).
Defined.

(** ** Malformed input *)

(** X5. An arrival text that [JSON.parse] rejects ends [verify_transfer] before
    [verifyTransfer] is called: after a decoded exit marker, the response is the
    error response with the parser's message, and the calls made are the codec's
    and the parser's. *)
Theorem unparseable_arrival_is_reported :
  forall (World : Type) (lib : Collaborators World)
         (exitMarkerJson arrivalMarkerJson : string) (s : ServerState World)
         (m : ExitMarker) (err : JsError),
    fromJSON lib exitMarkerJson = Ok m ->
    JSON_parse lib arrivalMarkerJson = Throw err ->
    verify_transfer lib exitMarkerJson arrivalMarkerJson s =
    (Ok {| content := VObj [("verified", VBool false); ("error", message_value err)];
           isError := true |},
     {| sessionIdentity := sessionIdentity s;
        world := world s;
        trace := trace s ++ [CallFromJSON exitMarkerJson; CallJSONParse arrivalMarkerJson] |}).
Proof.
  intros World lib e a s m err Hm Ha. unfold verify_transfer. run.
  rewrite Hm. simpl. rewrite Ha. simpl. now rewrite trace_two.
Qed.

Lemma unparseable_arrival_is_reported_witness :
  verify_transfer Reference.reference "exit:1000:alice" "{arrival" (Reference.start 5) =
  (Ok {| content := VObj [("verified", VBool false);
                          ("error", VStr "Unexpected token in JSON")];
         isError := true |},
   {| sessionIdentity := None;
      world := {| Reference.clock := 5; Reference.minted := 0 |};
      trace := [CallFromJSON "exit:1000:alice"; CallJSONParse "{arrival"] |}).
Proof.
  exact (unparseable_arrival_is_reported Reference.World Reference.reference
           "exit:1000:alice" "{arrival" (Reference.start 5) Reference.departure
           Reference.syntax_error eq_refl eq_refl).
Defined.

(** X6. A text the codec cannot decode makes [verify_exit_marker] answer
    [valid: false] with a non-empty [error] string (the exception's message, or
    "Verification failed" when that is missing or empty) and the error flag;
    the marker verification is not called and the session is left as it was. *)
Theorem undecodable_marker_is_rejected :
  forall (World : Type) (lib : Collaborators World) (markerJson : string)
         (s : ServerState World) (err : JsError),
    fromJSON lib markerJson = Throw err ->
    verify_exit_marker lib markerJson s =
    (Ok {| content := VObj [("valid", VBool false);
                            ("error", VStr (message_or err "Verification failed"))];
           isError := true |},
     {| sessionIdentity := sessionIdentity s;
        world := world s;
        trace := trace s ++ [CallFromJSON markerJson] |}) /\
    message_or err "Verification failed" <> "" /\
    (message err = None \/ message err = Some "" ->
     message_or err "Verification failed" = "Verification failed").
Proof.
  intros World lib json s err Hm. split; [| split].
  - unfold verify_exit_marker. run. now rewrite Hm.
  - apply message_or_nonempty. discriminate.
  - unfold message_or. intros [-> | ->]; reflexivity.
Qed.

Lemma undecodable_marker_is_rejected_witness :
  verify_exit_marker Reference.reference "{garbage" (Reference.start 5) =
  (Ok {| content := VObj [("valid", VBool false); ("error", VStr "Invalid marker JSON")];
         isError := true |},
   {| sessionIdentity := None;
      world := {| Reference.clock := 5; Reference.minted := 0 |};
      trace := [CallFromJSON "{garbage"] |}).
Proof.
  exact (proj1 (undecodable_marker_is_rejected Reference.World Reference.reference
                  "{garbage" (Reference.start 5) Reference.decode_error eq_refl)).
Defined.

(** ** [evaluate_admission] against [verify_and_admit] *)

Lemma policy_names_agree options policy :
  verify_and_admit_policyName options (Some policy)
  = evaluate_admission_effectivePolicy options policy.
Proof.
  unfold verify_and_admit_policyName, evaluate_admission_effectivePolicy.
  destruct (serverPolicy options); reflexivity.
Qed.

(** X7. [evaluate_admission] is the dry run of [verify_and_admit]: for the same
    text, policy name and state both resolve the same name and make the same
    evaluation call. What the first reports as refused, the second refuses with
    the same reasons and without an arrival; what the first reports as
    admitted, the second goes on to [quickEntry] with. *)
Theorem evaluate_admission_is_a_dry_run :
  forall (World : Type) (lib : Collaborators World) (options : CreateServerOptions)
         (exitMarkerJson destination policy : string) (s : ServerState World)
         (m : ExitMarker) (admission : AdmissionResult) (w : World),
    let name := evaluate_admission_effectivePolicy options policy in
    fromJSON lib exitMarkerJson = Ok m ->
    evaluateAdmission lib m (admissionPresets lib !! name) (world s) = (Ok admission, w) ->
    verify_and_admit_policyName options (Some policy) = name /\
    fst (evaluate_admission lib options exitMarkerJson policy s)
    = Ok {| content := VObj [("admitted", VBool (admitted admission));
                             ("reasons", strings_value (reasons admission));
                             ("policy", VStr name)];
            isError := false |} /\
    (admitted admission = false ->
     verify_and_admit lib options exitMarkerJson destination (Some policy) s =
     (Ok {| content := VObj [("admitted", VBool false);
                             ("reasons", strings_value (reasons admission))];
            isError := false |},
      snd (evaluate_admission lib options exitMarkerJson policy s))) /\
    (admitted admission = true ->
     trace (snd (verify_and_admit lib options exitMarkerJson destination (Some policy) s))
     = trace (snd (evaluate_admission lib options exitMarkerJson policy s))
       ++ [CallQuickEntry exitMarkerJson destination]).
Proof.
  intros World lib options json dest policy s m admission w name Hm Hev.
  split; [apply policy_names_agree |].
  split; [| split].
  - unfold evaluate_admission. run. rewrite Hm. simpl. fold name. now rewrite Hev.
  - intros Ha. unfold verify_and_admit, evaluate_admission. run.
    rewrite policy_names_agree. fold name. rewrite Hm. simpl. rewrite Hev. simpl.
    now rewrite Ha.
  - intros Ha. unfold verify_and_admit, evaluate_admission. run.
    rewrite policy_names_agree. fold name. rewrite Hm. simpl. rewrite Hev. simpl.
    rewrite Ha. simpl.
    destruct (quickEntry lib json dest w) as [[result | err] w']; reflexivity.
Qed.

Lemma evaluate_admission_is_a_dry_run_witness :
  verify_and_admit_policyName {| serverPolicy := None |} (Some "STRICT")
  = evaluate_admission_effectivePolicy {| serverPolicy := None |} "STRICT" /\
  fst (evaluate_admission Reference.reference {| serverPolicy := None |}
         "exit:1000:alice" "STRICT" (Reference.start 500000))
  = Ok {| content := VObj [("admitted", VBool false);
                           ("reasons", VArr [VStr "marker expired"]);
                           ("policy", VStr "STRICT")];
          isError := false |}.
Proof.
  pose proof (evaluate_admission_is_a_dry_run Reference.World Reference.reference
                {| serverPolicy := None |} "exit:1000:alice" "did:example:dest" "STRICT"
                (Reference.start 500000) Reference.departure
                {| admitted := false; reasons := ["marker expired"] |}
                {| Reference.clock := 500000; Reference.minted := 0 |}
                eq_refl eq_refl) as (H1 & H2 & _).
  exact (conj H1 H2).
Defined.

(** ** The session identity under the other tools *)


(** X8. The five tools outside the EXIT signing path neither write nor read the
    session identity: after [verify_exit_marker], [verify_and_admit],
    [evaluate_admission], [verify_transfer] or [list_admission_policies] the
    identity is the one held before, and response, world and calls are the same
    whatever identity the session holds. *)
Theorem entry_tools_leave_identity :
  forall (World : Type) (lib : Collaborators World) (options : CreateServerOptions)
         (req : Request) (s : ServerState World) (i : option Identity),
    touches_identity req = false ->
    sessionIdentity (snd (handle lib options req s)) = sessionIdentity s /\
    fst (handle lib options req (with_identity i s)) = fst (handle lib options req s) /\
    world (snd (handle lib options req (with_identity i s)))
    = world (snd (handle lib options req s)) /\
    trace (snd (handle lib options req (with_identity i s)))
    = trace (snd (handle lib options req s)).
Proof. intros. now apply entry_tools_frame. Qed.

Lemma entry_tools_leave_identity_witness :
  sessionIdentity
    (snd (handle Reference.reference {| serverPolicy := None |}
            (VerifyAndAdmit "exit:1000:alice" "did:example:dest" None)
            (with_identity (Some (Reference.mint 7)) (Reference.start 1500))))
  = Some (Reference.mint 7).
Proof.
  exact (proj1 (entry_tools_leave_identity Reference.World Reference.reference
                  {| serverPolicy := None |}
                  (VerifyAndAdmit "exit:1000:alice" "did:example:dest" None)
                  (with_identity (Some (Reference.mint 7)) (Reference.start 1500))
                  None eq_refl)).
Defined.

(** X9. Once a session holds an identity it holds one for good: no sequence of
    requests, failing or not, empties the [sessionIdentity] variable. *)
Theorem session_identity_is_never_cleared :
  forall (World : Type) (lib : Collaborators World) (options : CreateServerOptions)
         (reqs : list Request) (s : ServerState World),
    is_Some (sessionIdentity s) ->
    is_Some (sessionIdentity (snd (session lib options reqs s))).
Proof.
  intros World lib options reqs. induction reqs as [| req rest IH]; intros s Hs; simpl.
  - exact Hs.
  - pose proof (handle_keeps_identity lib options req s Hs) as Hstep.
    destruct (handle lib options req s) as [r s1]. simpl in Hstep.
    specialize (IH s1 Hstep).
    destruct (session lib options rest s1) as [rs s2]. exact IH.
Qed.

Lemma session_identity_is_never_cleared_witness :
  is_Some (sessionIdentity
             (snd (session Faults.broken_generator {| serverPolicy := None |}
                     [GenerateIdentity; VerifyExitMarker "{garbage";
                      QuickExit "did:example:a" None None]
                     (with_identity (Some (Reference.mint 7)) (Reference.start 5))))).
Proof.
  exact (session_identity_is_never_cleared Reference.World Faults.broken_generator
           {| serverPolicy := None |}
           [GenerateIdentity; VerifyExitMarker "{garbage"; QuickExit "did:example:a" None None]
           (with_identity (Some (Reference.mint 7)) (Reference.start 5))
           (ex_intro _ (Reference.mint 7) eq_refl)).
Defined.

(** ** Signing with the identity held *)

Section Signer.
Context {World : Type}.
Variable lib : Collaborators World.
Variable options : CreateServerOptions.

(** With an identity held, a response of [create_exit_marker] names that identity. *)
Lemma create_exit_marker_signer origin exitType reason s identity resp :
  sessionIdentity s = Some identity ->
  fst (create_exit_marker lib origin exitType reason s) = Ok resp ->
  js_field (content resp) "signerDid" = VStr (did identity).
Proof.
  intros Hid Hresp.
  destruct (identity_payloads lib origin exitType reason s resp) as (_ & _ & H).
  destruct (H Hresp) as (_ & identity' & Hid' & Hsigner).
  rewrite (proj1 (create_exit_marker_reuses_identity lib origin exitType reason s identity Hid))
    in Hid'.
  now injection Hid' as <-.
Qed.

Lemma creates_keep_signer reqs : forall s identity,
  sessionIdentity s = Some identity ->
  forallb is_create reqs = true ->
  sessionIdentity (snd (session lib options reqs s)) = Some identity /\
  Forall (fun r => match r with
                   | Ok resp => js_field (content resp) "signerDid" = VStr (did identity)
                   | Throw _ => True
                   end) (fst (session lib options reqs s)) /\
  List.filter is_generation (trace (snd (session lib options reqs s)))
  = List.filter is_generation (trace s).
Proof.
  induction reqs as [| req rest IH]; intros s identity Hid Hall; simpl.
  - auto.
  - simpl in Hall. apply andb_true_iff in Hall as [Hreq Hrest].
    destruct req as [| | o e r | | | | |]; try discriminate. simpl.
    pose proof (create_exit_marker_reuses_identity lib o e r s identity Hid)
      as (Hid1 & Hgen1 & _).
    pose proof (create_exit_marker_signer o e r s identity) as Hsigner.
    destruct (create_exit_marker lib o e r s) as [r1 s1]. simpl in *.
    destruct (IH s1 identity Hid1 Hrest) as (Hid2 & Hall2 & Hgen2).
    destruct (session lib options rest s1) as [rs s2]. simpl in *.
    split; [exact Hid2 |]. split; [| congruence].
    constructor; [| exact Hall2].
    destruct r1 as [resp | err]; [| exact I]. now apply Hsigner.
Qed.
End Signer.

(** X10. In a run of [create_exit_marker] requests on a session that holds an
    identity, every response names that identity as [signerDid], no identity is
    generated, and the session holds the same identity at the end. *)
Theorem create_exit_marker_signer_is_stable :
  forall (World : Type) (lib : Collaborators World) (options : CreateServerOptions)
         (reqs : list Request) (s : ServerState World) (identity : Identity),
    sessionIdentity s = Some identity ->
    forallb is_create reqs = true ->
    sessionIdentity (snd (session lib options reqs s)) = Some identity /\
    Forall (fun r => match r with
                     | Ok resp => js_field (content resp) "signerDid" = VStr (did identity)
                     | Throw _ => True
                     end) (fst (session lib options reqs s)) /\
    List.filter is_generation (trace (snd (session lib options reqs s)))
    = List.filter is_generation (trace s).
Proof. intros. now apply creates_keep_signer. Qed.

Lemma create_exit_marker_signer_is_stable_witness :
  sessionIdentity
    (snd (session Reference.reference {| serverPolicy := None |}
            [CreateExitMarker "did:example:a" None None;
             CreateExitMarker "did:example:a" (Some Emergency) (Some "again")]
            (with_identity (Some (Reference.mint 7))
               {| sessionIdentity := None;
                  world := {| Reference.clock := 5; Reference.minted := 1 |};
                  trace := [] |})))
  = Some (Reference.mint 7).
Proof.
  exact (proj1 (create_exit_marker_signer_is_stable Reference.World Reference.reference
                  {| serverPolicy := None |}
                  [CreateExitMarker "did:example:a" None None;
                   CreateExitMarker "did:example:a" (Some Emergency) (Some "again")]
                  (with_identity (Some (Reference.mint 7))
                     {| sessionIdentity := None;
                        world := {| Reference.clock := 5; Reference.minted := 1 |};
                        trace := [] |})
                  (Reference.mint 7) eq_refl eq_refl)).
Defined.

(** X11. With no identity held, [create_exit_marker] generates one, once, and
    the session keeps it whatever happens next: also when creating, signing or
    encoding throws and the exception leaves the handler. Every signing call it
    makes is with the key pair of that identity. *)
Theorem generated_identity_is_kept :
  forall (World : Type) (lib : Collaborators World) (origin : string)
         (exitType : option ExitType) (reason : option string) (s : ServerState World)
         (identity : Identity) (w : World),
    sessionIdentity s = None ->
    generateIdentity lib (world s) = (Ok identity, w) ->
    let s' := snd (create_exit_marker lib origin exitType reason s) in
    sessionIdentity s' = Some identity /\
    List.filter is_generation (trace s')
    = List.filter is_generation (trace s) ++ [CallGenerateIdentity] /\
    (forall m priv pub,
        In (CallSignMarker m priv pub) (trace s') ->
        In (CallSignMarker m priv pub) (trace s) \/
        (priv = privateKey identity /\ pub = publicKey identity)).
Proof.
  intros World lib origin exitType reason s identity w Hnone Hgen.
  unfold create_exit_marker, ensure_sessionIdentity. run. rewrite Hnone. simpl.
  rewrite Hgen. simpl.
  destruct (createMarker lib origin origin _ w) as [[marker | err] w1]; simpl;
    [destruct (signMarker lib marker _ _ w1) as [[signed | err] w2]; simpl;
     [destruct (toJSON lib signed) as [text | err]; simpl;
      [destruct (JSON_parse lib text) as [value | err]; simpl |] |] |];
    rewrite ?List.filter_app; simpl; rewrite ?app_nil_r;
    (split; [reflexivity | split; [reflexivity |]]);
    intros m priv pub H; sign_cases H.
Qed.

Lemma generated_identity_is_kept_witness :
  fst (create_exit_marker Faults.broken_signer "did:example:a" None None (Reference.start 5))
  = Throw Faults.silent_error /\
  sessionIdentity
    (snd (create_exit_marker Faults.broken_signer "did:example:a" None None
            (Reference.start 5)))
  = Some (Reference.mint 0).
Proof.
  split; [reflexivity |].
  exact (proj1 (generated_identity_is_kept Reference.World Faults.broken_signer
                  "did:example:a" None None (Reference.start 5) (Reference.mint 0)
                  {| Reference.clock := 5; Reference.minted := 1 |} eq_refl eq_refl)).
Defined.

(** X12. A failure of the key generator leaves [generate_identity], and
    [create_exit_marker] on a session without identity, as an exception, not as
    an error response, and the session stays without the identity it had not. *)
Theorem generation_failure_escapes :
  forall (World : Type) (lib : Collaborators World) (origin : string)
         (exitType : option ExitType) (reason : option string) (s : ServerState World)
         (err : JsError) (w : World),
    generateIdentity lib (world s) = (Throw err, w) ->
    generate_identity lib s =
    (Throw err, {| sessionIdentity := sessionIdentity s; world := w;
                   trace := trace s ++ [CallGenerateIdentity] |}) /\
    (sessionIdentity s = None ->
     create_exit_marker lib origin exitType reason s =
     (Throw err, {| sessionIdentity := None; world := w;
                    trace := trace s ++ [CallGenerateIdentity] |})).
Proof.
  intros World lib origin exitType reason s err w Hgen. split.
  - unfold generate_identity. run. now rewrite Hgen.
  - intros Hnone. unfold create_exit_marker, ensure_sessionIdentity. run.
    rewrite Hnone. simpl. rewrite Hgen. simpl. now rewrite ?Hnone.
Qed.

Lemma generation_failure_escapes_witness :
  generate_identity Faults.broken_generator (Reference.start 5) =
  (Throw Faults.generation_error,
   {| sessionIdentity := None;
      world := {| Reference.clock := 5; Reference.minted := 0 |};
      trace := [CallGenerateIdentity] |}).
Proof.
  exact (proj1 (generation_failure_escapes Reference.World Faults.broken_generator
                  "did:example:a" None None (Reference.start 5) Faults.generation_error
                  {| Reference.clock := 5; Reference.minted := 0 |} eq_refl)).
Defined.

(** X13. [quick_exit] replaces the session identity before it verifies the
    marker: when [verifyMarker] throws, the exception leaves the handler with no
    response, and the session already holds the identity [quickExit] returned
    in place of the one it held. *)
Theorem failed_quick_exit_replaces_identity :
  forall (World : Type) (lib : Collaborators World) (origin : string)
         (exitType : option ExitType) (reason : option string) (s : ServerState World)
         (m : ExitMarker) (identity : Identity) (w w' : World) (err : JsError),
    quickExit lib origin exitType reason (world s) = (Ok (m, identity), w) ->
    verifyMarker lib m w = (Throw err, w') ->
    quick_exit lib origin exitType reason s =
    (Throw err,
     {| sessionIdentity := Some identity; world := w';
        trace := trace s ++ [CallQuickExit origin exitType reason; CallVerifyMarker m] |}).
Proof.
  intros World lib origin exitType reason s m identity w w' err Hq Hv.
  unfold quick_exit. run. rewrite Hq. simpl. rewrite Hv. simpl. now rewrite trace_two.
Qed.

Lemma failed_quick_exit_replaces_identity_witness :
  quick_exit Faults.broken_verifier "did:example:a" None None
    (with_identity (Some (Reference.mint 0))
       {| sessionIdentity := None;
          world := {| Reference.clock := 5; Reference.minted := 1 |};
          trace := [CallGenerateIdentity] |}) =
  (Throw Faults.verification_error,
   {| sessionIdentity := Some (Reference.mint 1);
      world := {| Reference.clock := 5; Reference.minted := 2 |};
      trace := [CallGenerateIdentity; CallQuickExit "did:example:a" None None;
                CallVerifyMarker Reference.quick_marker] |}).
Proof.
  exact (failed_quick_exit_replaces_identity Reference.World Faults.broken_verifier
           "did:example:a" None None
           (with_identity (Some (Reference.mint 0))
              {| sessionIdentity := None;
                 world := {| Reference.clock := 5; Reference.minted := 1 |};
                 trace := [CallGenerateIdentity] |})
           Reference.quick_marker (Reference.mint 1)
           {| Reference.clock := 5; Reference.minted := 2 |}
           {| Reference.clock := 5; Reference.minted := 2 |}
           Faults.verification_error eq_refl eq_refl).
Defined.

(** ** The preset names *)

(** X14. [main] configures a server policy exactly when the environment
    variable holds one of the three preset names, and then that very name: an
    unset, empty or any other value configures none. *)
Theorem main_options_takes_presets_only :
  forall (envPolicy : option string) (name : string),
    serverPolicy (main_options envPolicy) = Some name <->
    envPolicy = Some name /\ is_preset_name name = true.
Proof.
  intros env name. destruct env as [n |]; simpl.
  - destruct (String.eqb n "") eqn:Hempty; simpl.
    + apply String.eqb_eq in Hempty. subst n. split; [discriminate |].
      intros [[= <-] H]. discriminate.
    + destruct (is_preset_name n) eqn:Hn; simpl.
      * split; [intros [= <-]; auto | intros [[= <-] _]; reflexivity].
      * split; [discriminate | intros [[= <-] H]; congruence].
  - split; [discriminate | intros [H _]; discriminate].
Qed.

(** X15. [list_admission_policies] calls nothing and changes nothing. It lists
    exactly the three names of [main]'s list, in that order, and under each of
    them a description followed by the properties of the preset that the table
    of the admission tools holds under that name. *)
Theorem listed_policies_are_the_presets :
  forall (World : Type) (lib : Collaborators World) (s : ServerState World),
    exists resp,
      list_admission_policies lib s = (Ok resp, s) /\
      isError resp = false /\
      js_keys (content resp) = ["policies"] /\
      js_keys (js_field (content resp) "policies") = preset_names /\
      (forall name,
          is_preset_name name = true ->
          exists P description,
            admissionPresets lib !! name = Some P /\
            js_field (js_field (content resp) "policies") name
            = VObj (("description", VStr description) :: policy_fields P)).
Proof.
  intros World lib s. eexists. split; [reflexivity |]. repeat split.
  intros name H.
  destruct (is_preset_name_cases name H) as [-> | [-> | ->]]; simpl; eauto.
Qed.

(** ** From one tool to the next *)

(** X16. The DID a tool reports is the DID that signs next: after a response of
    [generate_identity] (its [did]) or of [quick_exit] (its [signerDid]), a
    [create_exit_marker] on the state left behind answers with the same DID as
    [signerDid] and generates no identity. *)
Theorem reported_did_signs_next :
  forall (World : Type) (lib : Collaborators World)
         (origin origin' : string) (exitType exitType' : option ExitType)
         (reason reason' : option string) (s : ServerState World) (first next : Response),
    (fst (generate_identity lib s) = Ok first ->
     fst (create_exit_marker lib origin' exitType' reason' (snd (generate_identity lib s)))
     = Ok next ->
     js_field (content next) "signerDid" = js_field (content first) "did" /\
     List.filter is_generation
       (trace (snd (create_exit_marker lib origin' exitType' reason'
                      (snd (generate_identity lib s)))))
     = List.filter is_generation (trace (snd (generate_identity lib s)))) /\
    (fst (quick_exit lib origin exitType reason s) = Ok first ->
     fst (create_exit_marker lib origin' exitType' reason'
            (snd (quick_exit lib origin exitType reason s)))
     = Ok next ->
     js_field (content next) "signerDid" = js_field (content first) "signerDid" /\
     List.filter is_generation
       (trace (snd (create_exit_marker lib origin' exitType' reason'
                      (snd (quick_exit lib origin exitType reason s)))))
     = List.filter is_generation (trace (snd (quick_exit lib origin exitType reason s)))).
Proof.
  intros World lib origin origin' exitType exitType' reason reason' s first next.
  destruct (identity_payloads lib origin exitType reason s first) as (Hg & Hq & _).
  split.
  - intros Hfirst Hnext. destruct (Hg Hfirst) as (_ & identity & Hid & Hdid).
    rewrite Hdid. split.
    + exact (create_exit_marker_signer lib origin' exitType' reason' _ identity next Hid Hnext).
    + exact (proj1 (proj2 (create_exit_marker_reuses_identity lib origin' exitType' reason'
                             _ identity Hid))).
  - intros Hfirst Hnext. destruct (Hq Hfirst) as (_ & identity & Hid & Hdid).
    rewrite Hdid. split.
    + exact (create_exit_marker_signer lib origin' exitType' reason' _ identity next Hid Hnext).
    + exact (proj1 (proj2 (create_exit_marker_reuses_identity lib origin' exitType' reason'
                             _ identity Hid))).
Qed.

(** X17. An admitted marker whose arrival cannot be made is not reported as
    admitted: when the evaluation admits and [quickEntry] then throws,
    [verify_and_admit] answers the error response with [admitted: false] and
    the exception's message. *)
Theorem failed_arrival_is_not_admitted :
  forall (World : Type) (lib : Collaborators World) (options : CreateServerOptions)
         (exitMarkerJson destination : string) (admissionPolicy : option string)
         (s : ServerState World) (m : ExitMarker) (admission : AdmissionResult)
         (w w' : World) (err : JsError),
    let policy := admissionPresets lib !! verify_and_admit_policyName options admissionPolicy in
    fromJSON lib exitMarkerJson = Ok m ->
    evaluateAdmission lib m policy (world s) = (Ok admission, w) ->
    admitted admission = true ->
    quickEntry lib exitMarkerJson destination w = (Throw err, w') ->
    verify_and_admit lib options exitMarkerJson destination admissionPolicy s =
    (Ok {| content := VObj [("admitted", VBool false); ("error", message_value err)];
           isError := true |},
     {| sessionIdentity := sessionIdentity s;
        world := w';
        trace := trace s ++ [CallFromJSON exitMarkerJson; CallEvaluateAdmission m policy;
                             CallQuickEntry exitMarkerJson destination] |}).
Proof.
  intros World lib options json dest p s m admission w w' err policy Hm Hev Ha Hq.
  unfold verify_and_admit. run. rewrite Hm. simpl. fold policy. rewrite Hev. simpl.
  rewrite Ha. simpl. rewrite Hq. simpl. now rewrite trace_three.
Qed.

Lemma failed_arrival_is_not_admitted_witness :
  verify_and_admit Faults.broken_entry {| serverPolicy := None |}
    "exit:1000:alice" "did:example:dest" None (Reference.start 1500) =
  (Ok {| content := VObj [("admitted", VBool false); ("error", VUndefined)];
         isError := true |},
   {| sessionIdentity := None;
      world := {| Reference.clock := 1500; Reference.minted := 0 |};
      trace := [CallFromJSON "exit:1000:alice";
                CallEvaluateAdmission Reference.departure (Some Engine.OPEN_DOOR_preset);
                CallQuickEntry "exit:1000:alice" "did:example:dest"] |}).
Proof.
  exact (failed_arrival_is_not_admitted Reference.World Faults.broken_entry
           {| serverPolicy := None |} "exit:1000:alice" "did:example:dest" None
           (Reference.start 1500) Reference.departure
           {| admitted := true; reasons := [] |}
           {| Reference.clock := 1500; Reference.minted := 0 |}
           {| Reference.clock := 1500; Reference.minted := 0 |}
           Faults.silent_error eq_refl eq_refl eq_refl eq_refl).
Defined.

Lemma reported_did_signs_next_witness :
  js_field (VObj [("marker", Reference.marker_value Reference.created_marker);
                  ("signerDid", VStr "did:key:z0")]) "signerDid"
  = js_field (VObj [("did", VStr "did:key:z0");
                    ("message", VStr generate_identity_message)]) "did".
Proof.
  exact (proj1 (proj1 (reported_did_signs_next Reference.World Reference.reference
                         "did:example:a" "did:example:a" None None None None
                         (Reference.start 5)
                         {| content := VObj [("did", VStr "did:key:z0");
                                             ("message", VStr generate_identity_message)];
                            isError := false |}
                         {| content :=
                              VObj [("marker", Reference.marker_value Reference.created_marker);
                                    ("signerDid", VStr "did:key:z0")];
                            isError := false |})
                      eq_refl eq_refl)).
Defined.
